(** * MetaGPT: structured-output parsing and the incremental task pipeline

  A shallow embedding of

  - [metagpt/utils/common.py]: [OutputParser] and [CodeParser]
    (heading blocks, code fences, bracketed literals, [[CONTENT]] tags,
    schema-driven field mapping);
  - [metagpt/actions/project_management.py]: [WriteTasks]
    (generate-or-merge per changed file, persistence, the package
    requirements file).

  Python [str] values are Rocq [string]s whose characters are read as the
  code points U+0000..U+00FF.  Python exceptions are the [Raise] case of
  [result].  Insertion-ordered [dict]s are association lists updated in
  place ([dict_set]); file repositories are finite maps. *)

From Stdlib Require Import String Ascii List Arith Lia Bool.
From stdpp Require Import gmap strings.
Import ListNotations.

Local Open Scope string_scope.
Local Open Scope list_scope.

(** ** Exceptions *)

Inductive exn : Type :=
| ValueError (msg : string)
| IndexError
| AttributeError
| TypeError
| SyntaxError (msg : string)
| Exception (msg : string).

Inductive result (A : Type) : Type :=
| Ok (a : A)
| Raise (e : exn).
Arguments Ok {A} a.
Arguments Raise {A} e.

Definition rbind {A B} (r : result A) (k : A -> result B) : result B :=
match r with
| Ok a => k a
| Raise e => Raise e
end.

(** ** Python string primitives *)

Module Str.

Definition len (s : string) : nat := String.length s.

(** [str.isspace] on one character, restricted to U+0000..U+00FF:
    TAB..CR, FS..US, SPACE, NEL and NBSP.  The same table drives
    [str.strip()] and the regular-expression class [\s]. *)
Definition isspace (c : ascii) : bool :=
  let n := nat_of_ascii c in
  (((9 <=? n) && (n <=? 13)) || ((28 <=? n) && (n <=? 32))
   || (n =? 133) || (n =? 160))%nat.

Fixpoint lstrip (s : string) : string :=
  match s with
  | EmptyString => EmptyString
  | String c s' => if isspace c then lstrip s' else s
  end.

Fixpoint rstrip (s : string) : string :=
  match s with
  | EmptyString => EmptyString
  | String c s' =>
      match rstrip s' with
      | EmptyString => if isspace c then EmptyString else String c EmptyString
      | r => String c r
      end
  end.

(** [s.strip()] *)
Definition strip (s : string) : string := rstrip (lstrip s).

(** [s[i:j]] for non-negative [i], [j]. *)
Definition slice (s : string) (i j : nat) : string := String.substring i (j - i) s.

(** [s[i:]] *)
Fixpoint drop (i : nat) (s : string) : string :=
  match i, s with
  | O, _ => s
  | S i', String _ s' => drop i' s'
  | S _, EmptyString => EmptyString
  end.

(** [s.find(sub)], [None] standing for [-1]. *)
Definition find (sub s : string) : option nat := String.index 0 sub s.

(** [s.find(sub, start)] *)
Definition find_from (sub s : string) (start : nat) : option nat := String.index start sub s.

(** [s.rfind(c)] for a one-character [c]. *)
Fixpoint rfind_char (c : ascii) (s : string) : option nat :=
  match s with
  | EmptyString => None
  | String a s' =>
      match rfind_char c s' with
      | Some n => Some (S n)
      | None => if Ascii.eqb a c then Some 0 else None
      end
  end.

(** [sub in s] *)
Definition contains (sub s : string) : bool :=
  match find sub s with Some _ => true | None => false end.

(** [s.split(sep)] for a non-empty [sep].  [skip] counts the characters of
    a separator occurrence still to be passed over; the head of the result
    is the piece under construction. *)
Fixpoint split_from (sep : string) (skip : nat) (s : string) : list string :=
  match s with
  | EmptyString => [EmptyString]
  | String c s' =>
      match skip with
      | S k => split_from sep k s'
      | O =>
          if String.prefix sep s
          then EmptyString :: split_from sep (String.length sep - 1) s'
          else match split_from sep 0 s' with
               | p :: ps => String c p :: ps
               | [] => [String c EmptyString]
               end
      end
  end.

Definition split (sep s : string) : list string := split_from sep 0 s.

(** [s.split("\n", 1)]: [(s, None)] when [s] has no line feed, otherwise
    the text before the first line feed and the text after it. *)
Fixpoint split_nl_once (s : string) : string * option string :=
  match s with
  | EmptyString => (EmptyString, None)
  | String c s' =>
      if Ascii.eqb c "010"%char then (EmptyString, Some s')
      else let (h, t) := split_nl_once s' in (String c h, t)
  end.

(** [s[-1]] *)
Fixpoint last_char (s : string) : option ascii :=
  match s with
  | EmptyString => None
  | String c EmptyString => Some c
  | String _ s' => last_char s'
  end.

(** [s[:-1]] *)
Fixpoint drop_last (s : string) : string :=
  match s with
  | EmptyString => EmptyString
  | String _ EmptyString => EmptyString
  | String c s' => String c (drop_last s')
  end.

(** [sep.join(l)] *)
Fixpoint join (sep : string) (l : list string) : string :=
  match l with
  | [] => EmptyString
  | [x] => x
  | x :: l' => x +:+ sep +:+ join sep l'
  end.

(** Line boundaries of [str.splitlines] in U+0000..U+00FF:
    LF, VT, FF, CR, FS, GS, RS, NEL (CR LF counts once). *)
Definition is_linebreak (c : ascii) : bool :=
  let n := nat_of_ascii c in
  (((10 <=? n) && (n <=? 13)) || ((28 <=? n) && (n <=? 30)) || (n =? 133))%nat.

(** [s.splitlines()]; [cur] is the line read so far, reversed, and
    [after_cr] tells that the previous character was a CR. *)
Fixpoint splitlines_go (s : string) (cur : list ascii) (after_cr : bool) : list string :=
  match s with
  | EmptyString =>
      match cur with
      | [] => []
      | _ => [string_of_list_ascii (rev cur)]
      end
  | String c s' =>
      if Ascii.eqb c "010"%char && after_cr then splitlines_go s' cur false
      else if is_linebreak c
           then string_of_list_ascii (rev cur) :: splitlines_go s' [] (Ascii.eqb c "013"%char)
           else splitlines_go s' (c :: cur) false
  end.

Definition splitlines (s : string) : list string := splitlines_go s [] false.

(** [c in chars] for a character [c]. *)
Fixpoint in_chars (chars : string) (c : ascii) : bool :=
  match chars with
  | EmptyString => false
  | String a chars' => Ascii.eqb a c || in_chars chars' c
  end.

(** [s.lstrip(chars)] *)
Fixpoint lstrip_chars (chars s : string) : string :=
  match s with
  | EmptyString => EmptyString
  | String c s' => if in_chars chars c then lstrip_chars chars s' else s
  end.

(** [s.rstrip(chars)] *)
Fixpoint rstrip_chars (chars s : string) : string :=
  match s with
  | EmptyString => EmptyString
  | String c s' =>
      match rstrip_chars chars s' with
      | EmptyString => if in_chars chars c then EmptyString else String c EmptyString
      | r => String c r
      end
  end.

(** [s.strip(chars)] *)
Definition strip_chars (chars s : string) : string :=
  rstrip_chars chars (lstrip_chars chars s).

(** The character class [A-Za-z]. *)
Definition is_ascii_letter (c : ascii) : bool :=
  let n := nat_of_ascii c in
  (((65 <=? n) && (n <=? 90)) || ((97 <=? n) && (n <=? 122)))%nat.

End Str.

(** ** Insertion-ordered dictionaries *)

Section Dict.
Context {V : Type}.

(** [d[k] = v]: an existing key keeps its position. *)
Fixpoint dict_set (k : string) (v : V) (d : list (string * V)) : list (string * V) :=
  match d with
  | [] => [(k, v)]
  | (k', v') :: d' =>
      if String.eqb k' k then (k, v) :: d' else (k', v') :: dict_set k v d'
  end.

(** [d.get(k, None)] *)
Fixpoint dict_get (k : string) (d : list (string * V)) : option V :=
  match d with
  | [] => None
  | (k', v') :: d' => if String.eqb k' k then Some v' else dict_get k d'
  end.

Definition dict_keys (d : list (string * V)) : list string := map fst d.
End Dict.

(** ** Python literal values *)

(** The values [ast.literal_eval] can produce.  [VOther] stands for the
    scalars that play no part here (floats, complex numbers, bytes), kept by
    their source text. *)
#[warnings="-register-all"]
Inductive value : Type :=
| VNone
| VBool (b : bool)
| VInt (z : Z)
| VStr (s : string)
| VOther (repr : string)
| VList (items : list value)
| VTuple (items : list value)
| VSet (items : list value)
| VDict (entries : list (value * value)).

(** The two shapes [extract_struct] can be asked for: the classes [list]
    and [dict]. *)
Inductive struct_type : Type :=
| list_type
| dict_type.

(** [isinstance(v, list)] *)
Definition is_list (v : value) : bool :=
  match v with VList _ => true | _ => false end.

(** [isinstance(v, dict)] *)
Definition is_dict (v : value) : bool :=
  match v with VDict _ => true | _ => false end.

(** The top-level shape of a value, when it is one of the two. *)
Definition shape_of (v : value) : option struct_type :=
  match v with
  | VList _ => Some list_type
  | VDict _ => Some dict_type
  | _ => None
  end.

(** [[] if data_type is list else {}] *)
Definition empty_struct (data_type : struct_type) : value :=
  match data_type with
  | list_type => VList []
  | dict_type => VDict []
  end.

(** [str(data_type)] as an f-string prints it. *)
Definition struct_type_str (data_type : struct_type) : string :=
  match data_type with
  | list_type => "<class 'list'>"
  | dict_type => "<class 'dict'>"
  end.

(** ** A literal evaluator for a fragment of Python's literal syntax *)

Module PyLiteral.

Inductive token : Type :=
| TLBrack | TRBrack | TLBrace | TRBrace | TLParen | TRParen
| TComma | TColon | TMinus
| TInt (n : N)
| TStr (s : string)
| TName (s : string).

Inductive lex_state : Type :=
| Idle
| InNum (n : N)
| InName (acc : list ascii)
| InStr (quote : ascii) (acc : list ascii)
| InEsc (quote : ascii) (acc : list ascii).

Definition is_digit (c : ascii) : bool :=
  let n := nat_of_ascii c in ((48 <=? n) && (n <=? 57))%nat.

Definition digit_val (c : ascii) : N := N.of_nat (nat_of_ascii c - 48).

Definition is_name_char (c : ascii) : bool :=
  let n := nat_of_ascii c in
  (((65 <=? n) && (n <=? 90)) || ((97 <=? n) && (n <=? 122)) || (n =? 95))%nat.

Definition punct (c : ascii) : option token :=
  if Ascii.eqb c "["%char then Some TLBrack
  else if Ascii.eqb c "]"%char then Some TRBrack
  else if Ascii.eqb c "{"%char then Some TLBrace
  else if Ascii.eqb c "}"%char then Some TRBrace
  else if Ascii.eqb c "("%char then Some TLParen
  else if Ascii.eqb c ")"%char then Some TRParen
  else if Ascii.eqb c ","%char then Some TComma
  else if Ascii.eqb c ":"%char then Some TColon
  else if Ascii.eqb c "-"%char then Some TMinus
  else None.

Definition unescape (c : ascii) : ascii :=
  if Ascii.eqb c "n"%char then "010"%char
  else if Ascii.eqb c "t"%char then "009"%char
  else c.

(** A character read outside any token. *)
Definition lex_idle (c : ascii) : option (list token * lex_state) :=
  match punct c with
  | Some t => Some ([t], Idle)
  | None =>
      if Str.isspace c then Some ([], Idle)
      else if is_digit c then Some ([], InNum (digit_val c))
      else if is_name_char c then Some ([], InName [c])
      else if Ascii.eqb c "034"%char || Ascii.eqb c "'"%char then Some ([], InStr c [])
      else None
  end.

Definition lex_step (st : lex_state) (c : ascii) : option (list token * lex_state) :=
  match st with
  | Idle => lex_idle c
  | InNum n =>
      if is_digit c then Some ([], InNum (10 * n + digit_val c)%N)
      else if is_name_char c || Ascii.eqb c "."%char then None
      else option_map (fun '(ts, st') => (TInt n :: ts, st')) (lex_idle c)
  | InName acc =>
      if is_name_char c || is_digit c then Some ([], InName (c :: acc))
      else option_map
             (fun '(ts, st') => (TName (string_of_list_ascii (rev acc)) :: ts, st'))
             (lex_idle c)
  | InStr q acc =>
      if Ascii.eqb c q then Some ([TStr (string_of_list_ascii (rev acc))], Idle)
      else if Ascii.eqb c "\"%char then Some ([], InEsc q acc)
      else if Ascii.eqb c "010"%char then None
      else Some ([], InStr q (c :: acc))
  | InEsc q acc => Some ([], InStr q (unescape c :: acc))
  end.

Fixpoint lex (s : string) (st : lex_state) : option (list token) :=
  match s with
  | EmptyString =>
      match st with
      | Idle => Some []
      | InNum n => Some [TInt n]
      | InName acc => Some [TName (string_of_list_ascii (rev acc))]
      | InStr _ _ | InEsc _ _ => None
      end
  | String c s' =>
      match lex_step st c with
      | None => None
      | Some (ts, st') =>
          match lex s' st' with
          | None => None
          | Some rest => Some (ts ++ rest)
          end
      end
  end.

(** [hash(v)] is defined. *)
Fixpoint hashable (v : value) : bool :=
  match v with
  | VList _ | VSet _ | VDict _ => false
  | VTuple items => forallb hashable items
  | _ => true
  end.

Definition syntax_error {A} : result A := Raise (SyntaxError "invalid syntax").

(** [t] is the closing bracket [close]. *)
Definition token_is (close t : token) : bool :=
  match close, t with
  | TRBrack, TRBrack | TRParen, TRParen | TRBrace, TRBrace => true
  | _, _ => false
  end.

(** Recursive descent over the tokens.  [parse_expr] reads one display or
    scalar; [parse_items] reads a comma-separated sequence up to the token
    [close], telling whether a comma was seen; [parse_entries] does so for
    [key: value] pairs. *)
Fixpoint parse_expr (fuel : nat) (ts : list token) : result (value * list token) :=
  match fuel with
  | O => Raise (Exception "RecursionError")
  | S fuel' =>
      match ts with
      | TInt n :: r => Ok (VInt (Z.of_N n), r)
      | TMinus :: TInt n :: r => Ok (VInt (- Z.of_N n), r)
      | TStr s :: r => Ok (VStr s, r)
      | TName n :: r =>
          if String.eqb n "True" then Ok (VBool true, r)
          else if String.eqb n "False" then Ok (VBool false, r)
          else if String.eqb n "None" then Ok (VNone, r)
          else Raise (ValueError "malformed node or string")
      | TLBrack :: r =>
          rbind (parse_items fuel' TRBrack r) (fun '(items, _, r') => Ok (VList items, r'))
      | TLParen :: r =>
          rbind (parse_items fuel' TRParen r) (fun '(items, comma, r') =>
            match items, comma with
            | [v], false => Ok (v, r')
            | _, _ => Ok (VTuple items, r')
            end)
      | TLBrace :: TRBrace :: r => Ok (VDict [], r)
      | TLBrace :: r =>
          rbind (parse_expr fuel' r) (fun '(k, r1) =>
            match r1 with
            | TColon :: r2 =>
                rbind (parse_expr fuel' r2) (fun '(v, r3) =>
                  match r3 with
                  | TRBrace :: r4 =>
                      if hashable k then Ok (VDict [(k, v)], r4) else Raise TypeError
                  | TComma :: r4 =>
                      rbind (parse_entries fuel' r4) (fun '(es, r5) =>
                        if forallb (fun e => hashable (fst e)) ((k, v) :: es)
                        then Ok (VDict ((k, v) :: es), r5) else Raise TypeError)
                  | _ => syntax_error
                  end)
            | TRBrace :: r2 =>
                if hashable k then Ok (VSet [k], r2) else Raise TypeError
            | TComma :: r2 =>
                rbind (parse_items fuel' TRBrace r2) (fun '(items, _, r3) =>
                  if forallb hashable (k :: items)
                  then Ok (VSet (k :: items), r3) else Raise TypeError)
            | _ => syntax_error
            end)
      | _ => syntax_error
      end
  end
with parse_items (fuel : nat) (close : token) (ts : list token)
  : result (list value * bool * list token) :=
  match fuel with
  | O => Raise (Exception "RecursionError")
  | S fuel' =>
      match ts with
      | [] => syntax_error
      | t :: r =>
          if token_is close t then Ok ([], false, r)
          else
            rbind (parse_expr fuel' ts) (fun '(v, r1) =>
              match r1 with
              | [] => syntax_error
              | t1 :: r2 =>
                  if token_is close t1 then Ok ([v], false, r2)
                  else
                    match t1 with
                    | TComma =>
                        rbind (parse_items fuel' close r2) (fun '(vs, _, r3) =>
                          Ok (v :: vs, true, r3))
                    | _ => syntax_error
                    end
              end)
      end
  end
with parse_entries (fuel : nat) (ts : list token)
  : result (list (value * value) * list token) :=
  match fuel with
  | O => Raise (Exception "RecursionError")
  | S fuel' =>
      match ts with
      | [] => syntax_error
      | TRBrace :: r => Ok ([], r)
      | _ =>
          rbind (parse_expr fuel' ts) (fun '(k, r1) =>
            match r1 with
            | TColon :: r2 =>
                rbind (parse_expr fuel' r2) (fun '(v, r3) =>
                  match r3 with
                  | TRBrace :: r4 => Ok ([(k, v)], r4)
                  | TComma :: r4 =>
                      rbind (parse_entries fuel' r4) (fun '(es, r5) => Ok ((k, v) :: es, r5))
                  | _ => syntax_error
                  end)
            | _ => syntax_error
            end)
      end
  end.

(** The expressions after a comma at top level, as in [1, 2]. *)
Fixpoint parse_tail (n fuel : nat) (ts : list token) : result (list value) :=
  match n with
  | O => Raise (Exception "RecursionError")
  | S n' =>
      match ts with
      | [] => Ok []
      | _ =>
          rbind (parse_expr fuel ts) (fun '(v, r) =>
            match r with
            | [] => Ok [v]
            | TComma :: r' => rbind (parse_tail n' fuel r') (fun vs => Ok (v :: vs))
            | _ => syntax_error
            end)
      end
  end.

(** [s.lstrip(" \t")] *)
Fixpoint lstrip_blanks (s : string) : string :=
  match s with
  | EmptyString => EmptyString
  | String c s' =>
      if Ascii.eqb c " "%char || Ascii.eqb c "009"%char then lstrip_blanks s' else s
  end.

(** Modelled from the spec: the safe literal parser of section 4.3
    ([ast.literal_eval] of the Python standard library, which is not part
    of the sources), for nested lists, maps, tuples, sets, quoted strings,
    integers, booleans and [None].  Text outside this fragment is reported
    as a syntax error.  A [VDict] keeps its entries as written. *)
Definition literal_eval (s : string) : result value :=
  match lex (lstrip_blanks s) Idle with
  | None => syntax_error
  | Some ts =>
      let fuel := 2 * length ts + 2 in
      rbind (parse_expr fuel ts) (fun '(v, r) =>
        match r with
        | [] => Ok v
        | TComma :: r' =>
            rbind (parse_tail fuel fuel r') (fun vs => Ok (VTuple (v :: vs)))
        | _ => syntax_error
        end)
  end.

End PyLiteral.

(** ** Schemas *)

(** The type annotations a schema can carry; the three list annotations are
    the ones [parse_data_with_mapping] tests for. *)
Inductive typing : Type :=
| T_str
| T_List_str
| T_List_Tuple_str_str
| T_List_List_str
| T_other (name : string).

(** A schema value is an annotation, or a tuple whose first component is the
    annotation. *)
Inductive typing_define : Type :=
| Plain (t : typing)
| Tupled (t : typing).

(** [typing == List[str] or typing == List[Tuple[str, str]] or typing == List[List[str]]] *)
Definition is_list_typing (t : option typing) : bool :=
  match t with
  | Some T_List_str | Some T_List_Tuple_str_str | Some T_List_List_str => true
  | _ => false
  end.

(** ** Regular-expression searches

    Each search below is written out as the scan that [re.search] with
    [re.DOTALL] performs for the one pattern used at its call site. *)

Module Re.

(** The suffix of [s] that starts at its first whitespace character. *)
Fixpoint from_first_space (s : string) : option string :=
  match s with
  | EmptyString => None
  | String c s' => if Str.isspace c then Some s else from_first_space s'
  end.

(** Group 1 of the leftmost match of [```{lang}.*?\s+(.*?)```], for a [lang]
    without pattern metacharacters: the opening fence is the first
    occurrence of [```lang]; the lazy [.*?] stops at the first whitespace
    after it; [\s+] takes the whole whitespace run; the group runs to the
    next [```]. *)
Definition search_fence (lang text : string) : option string :=
  let fence_open := "```" +:+ lang in
  match Str.find fence_open text with
  | None => None
  | Some i =>
      match from_first_space (Str.drop (i + Str.len fence_open) text) with
      | None => None
      | Some spaces =>
          let body := Str.lstrip spaces in
          match Str.find "```" body with
          | None => None
          | Some p => Some (String.substring 0 p body)
          end
      end
  end.

(** Group 1 of the leftmost match of [\[{tag}\](.*?)\[/{tag}\]], for a [tag]
    without pattern metacharacters: the text between the first opening
    marker and the first closing marker after it. *)
Definition search_tag (tag text : string) : option string :=
  let tag_open := "[" +:+ tag +:+ "]" in
  let tag_close := "[/" +:+ tag +:+ "]" in
  match Str.find tag_open text with
  | None => None
  | Some i =>
      let rest := Str.drop (i + Str.len tag_open) text in
      match Str.find tag_close rest with
      | None => None
      | Some j => Some (String.substring 0 j rest)
      end
  end.

(** Group 2 of the leftmost match of the pattern of [parse_file_list]:
    optional whitespace, an optional greedy group holding an equals sign,
    then a greedy group from an opening to a closing square bracket.  Group 2
    ends at the last closing bracket.  When an equals sign stands before the
    last opening bracket that precedes it, the optional group takes part and
    its greedy tail leaves group 2 to start at that last opening bracket;
    otherwise group 2 starts at the first opening bracket. *)
Definition search_list (text : string) : option string :=
  match Str.rfind_char "]" text with
  | None => None
  | Some c =>
      match Str.rfind_char "[" (String.substring 0 c text) with
      | None => None
      | Some b =>
          if Str.contains "=" (String.substring 0 b text)
          then Some (Str.slice text b (c + 1))
          else
            match Str.find "[" text with
            | None => None
            | Some k => Some (Str.slice text k (c + 1))
            end
      end
  end.

(** The longest prefix of [s] made of letters [A-Za-z]. *)
Fixpoint letters_prefix (s : string) : string :=
  match s with
  | EmptyString => EmptyString
  | String c s' => if Str.is_ascii_letter c then String c (letters_prefix s') else EmptyString
  end.

(** Group 1 of a match of [{pat}\s*([A-Za-z]+)\s*?] that starts at the head
    of [s], for a literal [pat]: the greedy [\s*] takes the whole whitespace
    run, the group the letters that follow, of which there must be one; the
    lazy [\s*?] takes nothing. *)
Definition recipient_at (pat s : string) : option string :=
  if String.prefix pat s
  then match letters_prefix (Str.lstrip (Str.drop (Str.len pat) s)) with
       | EmptyString => None
       | name => Some name
       end
  else None.

(** Group 1 of the leftmost match of that pattern in [s]. *)
Fixpoint search_recipient (pat s : string) : option string :=
  match recipient_at pat s with
  | Some name => Some name
  | None =>
      match s with
      | EmptyString => None
      | String _ s' => search_recipient pat s'
      end
  end.

End Re.

(** ** OutputParser *)

Module OutputParser.

(** One iteration of the loop of [parse_blocks]: a segment without a line
    feed cannot be unpacked into two names, and an empty title has no last
    character. *)
Definition parse_block_step (block_dict : list (string * string)) (block : string)
  : result (list (string * string)) :=
  if String.eqb (Str.strip block) "" then Ok block_dict
  else
    match Str.split_nl_once block with
    | (_, None) => Raise (ValueError "not enough values to unpack (expected 2, got 1)")
    | (block_title, Some block_content) =>
        match Str.last_char block_title with
        | None => Raise IndexError
        | Some c =>
            let block_title :=
              if Ascii.eqb c ":"%char then Str.drop_last block_title else block_title in
            Ok (dict_set (Str.strip block_title) (Str.strip block_content) block_dict)
        end
    end.

Fixpoint parse_blocks_loop (blocks : list string) (block_dict : list (string * string))
  : result (list (string * string)) :=
  match blocks with
  | [] => Ok block_dict
  | block :: rest => rbind (parse_block_step block_dict block) (parse_blocks_loop rest)
  end.

Definition parse_blocks (text : string) : result (list (string * string)) :=
  parse_blocks_loop (Str.split "##" text) [].

Definition parse_code (text : string) (lang : string) : result string :=
  match Re.search_fence lang text with
  | Some code => Ok code
  | None => Raise (Exception "")
  end.

Definition parse_str (text : string) : string :=
  let text := List.last (Str.split "=" text) "" in
  Str.strip_chars (String "034" "") (Str.strip_chars "'" (Str.strip text)).

Definition no_content_found : string :=
  "No content found between [CONTENT] and [/CONTENT] tags.".

Definition extract_content (text : string) (tag : string) : string :=
  match Re.search_tag tag text with
  | Some extracted_content => Str.strip extracted_content
  | None => no_content_found
  end.

Section WithLiteralEval.

(** [ast.literal_eval] *)
Variable literal_eval : string -> result value.

Definition parse_file_list (text : string) : result value :=
  match Re.search_list text with
  | Some tasks_list_str => literal_eval tasks_list_str
  | None => Ok (VList (map VStr (Str.split (String "010" "") text)))
  end.

(** The body of the loop of [parse_data_with_mapping] for one block. *)
Definition parse_field (mapping : list (string * typing_define)) (block content : string)
  : value :=
  let content :=
    match parse_code content "" with
    | Ok code => code
    | Raise _ => content
    end in
  let typing_define := dict_get block mapping in
  let typing :=
    match typing_define with
    | Some (Tupled t) => Some t
    | Some (Plain t) => Some t
    | None => None
    end in
  if is_list_typing typing
  then match parse_file_list content with
       | Ok tasks => tasks
       | Raise _ => VStr content
       end
  else VStr content.

(** The loop of [parse_data_with_mapping] over the items of [block_dict]. *)
Definition map_blocks (mapping : list (string * typing_define))
  (block_dict : list (string * string)) : list (string * value) :=
  fold_left
    (fun parsed_data '(block, content) =>
       dict_set block (parse_field mapping block content) parsed_data)
    block_dict [].

Definition parse_data_with_mapping (data : string) (mapping : list (string * typing_define))
  : result (list (string * value)) :=
  let data := extract_content data "CONTENT" in
  rbind (parse_blocks data) (fun block_dict => Ok (map_blocks mapping block_dict)).

(** The body of the loop of [parse_data] for one block: the fence is
    stripped when there is one, then the text is read as a list when that
    does not raise. *)
Definition parse_content (content : string) : value :=
  let content :=
    match parse_code content "" with
    | Ok code => code
    | Raise _ => content
    end in
  match parse_file_list content with
  | Ok tasks => tasks
  | Raise _ => VStr content
  end.

Definition parse_data (data : string) : result (list (string * value)) :=
  rbind (parse_blocks data) (fun block_dict =>
    Ok (fold_left
          (fun parsed_data '(block, content) =>
             dict_set block (parse_content content) parsed_data)
          block_dict [])).

(** The handler of [extract_struct]: a [ValueError] or [SyntaxError] is
    raised again as a plain [Exception] that quotes it. *)
Definition wrap_error (data_type : struct_type) (e : exn) : exn :=
  let prefix := "Error while extracting and parsing the " +:+ struct_type_str data_type +:+ ": " in
  match e with
  | ValueError msg => Exception (prefix +:+ msg)
  | SyntaxError msg => Exception (prefix +:+ msg)
  | _ => e
  end.

(** The [ValueError] of [extract_struct] for a value that is neither a list
    nor a dict. *)
Definition not_a_structure (data_type : struct_type) : exn :=
  ValueError ("The extracted structure is not a " +:+ struct_type_str data_type +:+ ".").

Definition extract_struct (text : string) (data_type : struct_type) : result value :=
  let start_index :=
    Str.find (match data_type with list_type => "[" | dict_type => "{" end) text in
  let end_index :=
    Str.rfind_char (match data_type with list_type => "]" | dict_type => "}" end)%char text in
  match start_index, end_index with
  | Some start_index, Some end_index =>
      let structure_text := Str.slice text start_index (end_index + 1) in
      match literal_eval structure_text with
      | Ok result =>
          if is_list result || is_dict result then Ok result
          else Raise (wrap_error data_type (not_a_structure data_type))
      | Raise e => Raise (wrap_error data_type e)
      end
  | _, _ => Ok (empty_struct data_type)
  end.

End WithLiteralEval.

End OutputParser.

(** ** CodeParser *)

Module CodeParser.

(** One iteration of the loop of [parse_blocks]. *)
Definition parse_block_step (block_dict : list (string * string)) (block : string)
  : list (string * string) :=
  if String.eqb (Str.strip block) "" then block_dict
  else
    let '(block_title, block_content) :=
      match Str.split_nl_once block with
      | (_, None) => (block, "")
      | (block_title, Some block_content) => (block_title, block_content)
      end in
    dict_set (Str.strip block_title) (Str.strip block_content) block_dict.

Definition parse_blocks (text : string) : list (string * string) :=
  fold_left parse_block_step (Str.split "##" text) [].

(** The loop of [parse_block] over the items of the dictionary. *)
Fixpoint first_containing (block : string) (blocks : list (string * string)) : string :=
  match blocks with
  | [] => ""
  | (k, v) :: rest => if Str.contains block k then v else first_containing block rest
  end.

Definition parse_block (block text : string) : string :=
  first_containing block (parse_blocks text).

Definition parse_code (block text lang : string) : string :=
  let text := if String.eqb block "" then text else parse_block block text in
  match Re.search_fence lang text with
  | Some code => code
  | None => text
  end.

Definition parse_str (block text lang : string) : string :=
  let code := parse_code block text lang in
  let code := List.last (Str.split "=" code) "" in
  Str.strip_chars (String "034" "") (Str.strip_chars "'" (Str.strip code)).

Definition parse_file_list (literal_eval : string -> result value) (block text lang : string)
  : result value :=
  let code := parse_code block text lang in
  match Re.search_list code with
  | Some tasks_list_str => literal_eval tasks_list_str
  | None => Raise (Exception "")
  end.

End CodeParser.

(** ** Module-level helpers of [common.py] *)

Definition parse_recipient (text : string) : string :=
  match Re.search_recipient "## Send To:" text with
  | Some recipient => recipient
  | None =>
      match Re.search_recipient "Send To:" text with
      | Some recipient => recipient
      | None => ""
      end
  end.

(** [is_subscribed(message, tags)], with [send_to] for [message.send_to], the
    set of addresses of the message, and [MESSAGE_ROUTE_TO_ALL] a constant of
    [metagpt.const]; the loop goes over the tags in the order [elements]
    gives. *)
Definition is_subscribed (MESSAGE_ROUTE_TO_ALL : string) (send_to tags : gset string) : bool :=
  if bool_decide (MESSAGE_ROUTE_TO_ALL ∈ send_to) then true
  else existsb (fun i => bool_decide (i ∈ send_to)) (elements tags).

(** ** Documents, repositories and the world of a pipeline run *)

Record Document : Type := {
  root_path : string;
  filename : string;
  content : string;
}.

(** Modelled from the spec: the artifact store of section 6
    ([metagpt.utils.file_repository.FileRepository], not part of the
    sources): the files of one directory of the project, the dependencies
    recorded when they were saved, and the names reported as changed. *)
Record FileRepository : Type := {
  relative_path : string;
  files : gmap string string;
  dependencies : gmap string (list string);
  changed_files : list string;
}.

(** Modelled from the spec: [get(filename) -> Document | absent]. *)
Definition repo_get (repo : FileRepository) (name : string) : option Document :=
  (fun c => {| root_path := relative_path repo; filename := name; content := c |})
    <$> files repo !! name.

(** Modelled from the spec: [save(filename, content, dependencies)]. *)
Definition repo_save (repo : FileRepository) (name text : string) (deps : list string)
  : FileRepository :=
  {| relative_path := relative_path repo;
     files := <[name := text]> (files repo);
     dependencies := <[name := deps]> (dependencies repo);
     changed_files := changed_files repo |}.

(** A call of [PM_NODE.fill], by the method that made it: [_run_new_tasks]
    (the generate callback) or [_merge] (the merge callback), with the
    context passed. *)
Inductive call : Type :=
| Generate (context : string)
| Merge (context : string).

Record world : Type := {
  system_designs : FileRepository;
  tasks : FileRepository;
  project_root : FileRepository;
  exports : gmap string string;
  calls : list call;
}.

(** Decoded JSON. *)
#[warnings="-register-all"]
Inductive json : Type :=
| JNull
| JBool (b : bool)
| JNum (z : Z)
| JStr (s : string)
| JArr (items : list json)
| JObj (members : list (string * json)).

(** ** The pipeline monad: state and exceptions *)

Definition M (A : Type) : Type := world -> result A * world.

Definition ret {A} (a : A) : M A := fun w => (Ok a, w).

Definition raise {A} (e : exn) : M A := fun w => (Raise e, w).

Definition bind {A B} (m : M A) (k : A -> M B) : M B :=
  fun w =>
    match m w with
    | (Ok a, w') => k a w'
    | (Raise e, w') => (Raise e, w')
    end.

Definition lift {A} (r : result A) : M A := fun w => (r, w).

Definition gets {A} (f : world -> A) : M A := fun w => (Ok (f w), w).

Definition modify (f : world -> world) : M unit := fun w => (Ok tt, f w).

#[global] Instance M_ret : MRet M := @ret.
#[global] Instance M_bind : MBind M := fun A B k m => bind m k.

(** [doc.content] where [doc] may be [None]. *)
Definition attr_content (doc : option Document) : M string :=
  match doc with
  | Some d => ret (content d)
  | None => raise AttributeError
  end.

(** [NEW_REQ_TEMPLATE.format(context=..., old_tasks=...)] *)
Definition NEW_REQ_TEMPLATE : string :=
  String "010" "### Legacy Content" +:+ String "010" "{old_tasks}" +:+ String "010" ""
  +:+ String "010" "### New Requirements" +:+ String "010" "{context}" +:+ String "010" "".

(** [str.format] with keyword fields, for a template whose only braces are
    replacement fields [{name}]; [field] holds the name being read,
    reversed, once an opening brace was met. *)
Fixpoint format_go (template : string) (field : option (list ascii))
  (fields : list (string * string)) : result string :=
  match template with
  | EmptyString =>
      match field with
      | None => Ok EmptyString
      | Some _ => Raise (ValueError "expected '}' before end of string")
      end
  | String c rest =>
      match field with
      | None =>
          if Ascii.eqb c "{"%char then format_go rest (Some []) fields
          else rbind (format_go rest None fields) (fun s => Ok (String c s))
      | Some name =>
          if Ascii.eqb c "}"%char
          then match dict_get (string_of_list_ascii (rev name)) fields with
               | Some v => rbind (format_go rest None fields) (fun s => Ok (v +:+ s))
               | None => Raise (Exception "KeyError")
               end
          else format_go rest (Some (c :: name)) fields
      end
  end.

Definition format (template : string) (fields : list (string * string)) : result string :=
  format_go template None fields.

(** ** WriteTasks *)

Module WriteTasks.

Section Pipeline.

(** Constants of [metagpt.const]. *)
Variables TASK_FILE_REPO TASK_PDF_FILE_REPO PACKAGE_REQUIREMENTS_FILENAME : string.

(** [PM_NODE.fill(context, llm, schema)] followed by
    [.instruct_content.json(ensure_ascii=False)]: the text the language
    model answers, which may depend on the calls made before. *)
Variable PM_NODE_fill : list call -> string -> string.

(** [json.loads] *)
Variable json_loads : string -> result json.

(** [Document.root_relative_path] *)
Variable root_relative_path : Document -> string.

Definition record_call (c : call) (w : world) : world :=
  {| system_designs := system_designs w; tasks := tasks w;
     project_root := project_root w; exports := exports w;
     calls := calls w ++ [c] |}.

Definition fill (c : string -> call) (context : string) : M string :=
  history ← gets calls;
  modify (record_call (c context));;
  mret (PM_NODE_fill history context).

Definition _run_new_tasks (context : string) : M string := fill Generate context.

Definition _merge (system_design_doc : option Document) (task_doc : Document) : M Document :=
  new_content ← attr_content system_design_doc;
  context ← lift (format NEW_REQ_TEMPLATE
                    [("context", new_content); ("old_tasks", content task_doc)]);
  node ← fill Merge context;
  mret {| root_path := root_path task_doc; filename := filename task_doc; content := node |}.

(** [set(m.get("Required Python third-party packages", set()))]: the
    members of a list, the characters of a string or the keys of an object.
    Members that are not strings are refused here; in the source they are
    refused by [set] when unhashable and by [join] otherwise, with no effect
    in between. *)
Fixpoint strings_of (items : list json) : result (gset string) :=
  match items with
  | [] => Ok ∅
  | JStr s :: rest => rbind (strings_of rest) (fun acc => Ok ({[ s ]} ∪ acc))
  | _ :: _ => Raise TypeError
  end.

Definition chars_of (s : string) : gset string :=
  list_to_set (map (fun c => String c EmptyString) (list_ascii_of_string s)).

Definition required_packages (m : json) : result (gset string) :=
  match m with
  | JObj members =>
      match dict_get "Required Python third-party packages" members with
      | None => Ok ∅
      | Some (JArr items) => strings_of items
      | Some (JStr s) => Ok (chars_of s)
      | Some (JObj kvs) => Ok (list_to_set (map fst kvs))
      | Some _ => Raise TypeError
      end
  | _ => Raise AttributeError
  end.

(** The loop of [_update_requirements] over the lines of the requirements
    file. *)
Fixpoint add_lines (lines : list string) (packages : gset string) : gset string :=
  match lines with
  | [] => packages
  | pkg :: rest =>
      if String.eqb pkg "" then add_lines rest packages
      else add_lines rest ({[ pkg ]} ∪ packages)
  end.

(** The set the requirements file is rewritten from: the packages of the
    document and the non-empty lines of the file as it was, if any. *)
Definition merged_requirements (packages : gset string) (requirement_doc : option Document)
  : gset string :=
  let requirement_doc :=
    match requirement_doc with
    | Some d => d
    | None => {| filename := PACKAGE_REQUIREMENTS_FILENAME; root_path := "."; content := "" |}
    end in
  add_lines (Str.splitlines (content requirement_doc)) packages.

Definition save_root (name text : string) (w : world) : world :=
  {| system_designs := system_designs w; tasks := tasks w;
     project_root := repo_save (project_root w) name text [];
     exports := exports w; calls := calls w |}.

(** The iteration order of a Python set is unspecified; [elements] fixes
    one. *)
Definition _update_requirements (doc : Document) : M unit :=
  m ← lift (json_loads (content doc));
  packages ← lift (required_packages m);
  requirement_doc ← gets (fun w => repo_get (project_root w) PACKAGE_REQUIREMENTS_FILENAME);
  modify (save_root PACKAGE_REQUIREMENTS_FILENAME
            (Str.join (String "010" "")
               (elements (merged_requirements packages requirement_doc)))).

(** Modelled from the spec: the secondary export sink of section 6
    ([FileRepository.save_as], not part of the sources): the final content
    under the same name with the suffix [.md]. *)
Definition save_export (task_doc : Document) (w : world) : world :=
  {| system_designs := system_designs w; tasks := tasks w;
     project_root := project_root w;
     exports := <[filename task_doc +:+ ".md" := content task_doc]> (exports w);
     calls := calls w |}.

Definition _save_pdf (task_doc : Document) : M unit := modify (save_export task_doc).

Definition save_task (name text : string) (deps : list string) (w : world) : world :=
  {| system_designs := system_designs w;
     tasks := repo_save (tasks w) name text deps;
     project_root := project_root w; exports := exports w; calls := calls w |}.

Definition _update_tasks (name : string) : M Document :=
  system_design_doc ← gets (fun w => repo_get (system_designs w) name);
  task_doc ← gets (fun w => repo_get (tasks w) name);
  task_doc ← match task_doc with
             | Some task_doc => _merge system_design_doc task_doc
             | None =>
                 context ← attr_content system_design_doc;
                 rsp ← _run_new_tasks context;
                 mret {| root_path := TASK_FILE_REPO; filename := name; content := rsp |}
             end;
  dependency ← match system_design_doc with
               | Some d => mret (root_relative_path d)
               | None => raise AttributeError
               end;
  modify (save_task name (content task_doc) [dependency]);;
  _update_requirements task_doc;;
  _save_pdf task_doc;;
  mret task_doc.

(** The first loop of [run], over the changed system designs. *)
Fixpoint run_designs (names : list string) (docs : list (string * Document))
  : M (list (string * Document)) :=
  match names with
  | [] => mret docs
  | name :: rest =>
      task_doc ← _update_tasks name;
      run_designs rest (dict_set name task_doc docs)
  end.

(** The second loop of [run], over the changed task files. *)
Fixpoint run_tasks (names : list string) (docs : list (string * Document))
  : M (list (string * Document)) :=
  match names with
  | [] => mret docs
  | name :: rest =>
      match dict_get name docs with
      | Some _ => run_tasks rest docs
      | None =>
          task_doc ← _update_tasks name;
          run_tasks rest (dict_set name task_doc docs)
      end
  end.

(** [run]: the documents of [change_files], by file name. *)
Definition run : M (list (string * Document)) :=
  changed_system_designs ← gets (fun w => changed_files (system_designs w));
  changed_tasks ← gets (fun w => changed_files (tasks w));
  docs ← run_designs changed_system_designs [];
  run_tasks changed_tasks docs.

End Pipeline.

End WriteTasks.

(** ** Notions the properties are stated with *)

(** [sub] occurs in [s] at index [i]. *)
Definition occurs_at (sub s : string) (i : nat) : Prop :=
  String.substring i (String.length sub) s = sub.

(** What the lenient fence extractor makes of a block body: the interior of
    its first fence, or the body itself when it has none. *)
Definition fence_stripped (body : string) : string := CodeParser.parse_code "" body "".

(** The typed field mapper as section 4.5 words it: for each field of the
    schema, the first block whose title contains the field name; a field
    without such a block is left out; a located body is stripped of its
    fence and, for a list shape, read as an inline list when that works. *)
Module Spec.

Fixpoint locate (field : string) (blocks : list (string * string)) : option string :=
  match blocks with
  | [] => None
  | (title, body) :: rest =>
      if Str.contains field title then Some body else locate field rest
  end.

Definition map (literal_eval : string -> result value)
  (blocks : list (string * string)) (schema : list (string * typing_define))
  : list (string * value) :=
  flat_map
    (fun '(field, shape) =>
       match locate field blocks with
       | None => []
       | Some body =>
           let text := fence_stripped body in
           let shape := match shape with Plain t | Tupled t => t end in
           [(field,
             if is_list_typing (Some shape)
             then match OutputParser.parse_file_list literal_eval text with
                  | Ok items => items
                  | Raise _ => VStr text
                  end
             else VStr text)]
       end)
    schema.

(** The aggregation sink as section 4.7 and its example word it: the set
    union of the non-empty entries of the existing content with the
    non-empty new items. *)
Definition add_all (existing_lines : list string) (new_items : gset string) : gset string :=
  list_to_set (List.filter (fun x => negb (String.eqb x "")) existing_lines)
  ∪ filter (fun x => x <> "") new_items.

End Spec.

(** The merge context: the old tasks under the first heading of
    [NEW_REQ_TEMPLATE], the new design under the second. *)
Definition merge_context (old_tasks new_design : string) : string :=
  String "010" "### Legacy Content" +:+ String "010" old_tasks
  +:+ String "010" (String "010" "### New Requirements")
  +:+ String "010" new_design +:+ String "010" "".

(** The names of the second change list that [run] does not skip, [seen]
    being the names handled so far. *)
Fixpoint second_queue (names seen : list string) : list string :=
  match names with
  | [] => []
  | name :: rest =>
      if existsb (String.eqb name) seen then second_queue rest seen
      else name :: second_queue rest (seen ++ [name])
  end.

(** The processing queue of a run: the changed system designs, then the
    changed task files not met before. *)
Definition queue (w : world) : list string :=
  changed_files (system_designs w)
  ++ second_queue (changed_files (tasks w)) (changed_files (system_designs w)).

(** The call a file is due, from the two repositories as the run finds
    them: generation from the design when there is no task file, a merge of
    the task file with the design otherwise. *)
Definition decision (w : world) (name : string) : call :=
  let design := default "" (files (system_designs w) !! name) in
  match files (tasks w) !! name with
  | None => Generate design
  | Some old_tasks => Merge (merge_context old_tasks design)
  end.

(** The delimiters of the two shapes. *)
Definition opening (data_type : struct_type) : ascii :=
  match data_type with list_type => "["%char | dict_type => "{"%char end.

Definition closing (data_type : struct_type) : ascii :=
  match data_type with list_type => "]"%char | dict_type => "}"%char end.

(** What [extract_struct] does with the outcome of the literal evaluator on
    the sliced span. *)
Definition checked (data_type : struct_type) (r : result value) : result value :=
  match r with
  | Ok v =>
      if is_list v || is_dict v then Ok v
      else Raise (OutputParser.wrap_error data_type (OutputParser.not_a_structure data_type))
  | Raise e => Raise (OutputParser.wrap_error data_type e)
  end.

(** What the shape test of [extract_struct] relies on from the literal
    evaluator: a text that opens with a square bracket does not evaluate to
    a dict, a text that opens with a brace does not evaluate to a list, and
    the empty text has no value.  Python's grammar gives all three. *)
Record head_determined (literal_eval : string -> result value) : Prop := {
  list_head : forall s v, literal_eval (String "[" s) = Ok v -> is_dict v = false;
  dict_head : forall s v, literal_eval (String "{" s) = Ok v -> is_list v = false;
  empty_text : forall v, literal_eval "" <> Ok v;
}.

(** The entry [parse_data_with_mapping] makes of one block. *)
Definition parsed_entry (literal_eval : string -> result value)
  (mapping : list (string * typing_define)) (b : string * string) : string * value :=
  (fst b, OutputParser.parse_field literal_eval mapping (fst b) (snd b)).

(** ** Sample repositories and callbacks *)

Module Sample.

Definition packages_key : string := "Required Python third-party packages".

(** A decoder that finds the given packages in every document. *)
Definition loads (packages : list string) : string -> result json :=
  fun _ => Ok (JObj [(packages_key, JArr (List.map JStr packages))]).

(** A language model that answers every context with the same text. *)
Definition answer (text : string) : list call -> string -> string := fun _ _ => text.

Definition path_of (d : Document) : string := root_path d +:+ "/" +:+ filename d.

Definition repo (path : string) (contents : list (string * string)) (changed : list string)
  : FileRepository :=
  {| relative_path := path; files := list_to_map contents;
     dependencies := ∅; changed_files := changed |}.

(** A project whose root holds the given files and nothing else. *)
Definition root_only (contents : list (string * string)) : world :=
  {| system_designs := repo "docs/system_design" [] [];
     tasks := repo "docs/tasks" [] [];
     project_root := repo "." contents [];
     exports := ∅; calls := [] |}.

(** A project given by its system designs, its task files and the names
    the two repositories report as changed. *)
Definition project (designs task_files : list (string * string))
  (changed_designs changed_tasks : list string) : world :=
  {| system_designs := repo "docs/system_design" designs changed_designs;
     tasks := repo "docs/tasks" task_files changed_tasks;
     project_root := repo "." [] [];
     exports := ∅; calls := [] |}.

End Sample.

(** The language model always answers with a document whose packages can
    be read. *)
Definition answers_decodable (PM_NODE_fill : list call -> string -> string)
  (json_loads : string -> result json) : Prop :=
  forall history context, exists m packages,
    json_loads (PM_NODE_fill history context) = Ok m
    /\ WriteTasks.required_packages m = Ok packages.

(** ** Tactics for the pipeline monad *)

Ltac run_monad :=
  cbv beta iota zeta delta
    [WriteTasks._update_tasks WriteTasks._merge WriteTasks._run_new_tasks WriteTasks.fill
     WriteTasks._update_requirements WriteTasks._save_pdf attr_content
     mbind M_bind bind mret M_ret ret lift gets modify raise repo_get
     fmap option_fmap option_map];
  cbn [content root_path filename].

Ltac world_fields :=
  cbn [calls system_designs tasks project_root exports files changed_files relative_path
       dependencies WriteTasks.save_export WriteTasks.save_root WriteTasks.save_task
       WriteTasks.record_call repo_save content root_path filename].

(** [s] between double quotes. *)
Definition quoted (s : string) : string := String "034" (s +:+ String "034" "").

(** Stripping by a predicate on characters, of which [Str.lstrip],
    [Str.rstrip] and their [chars] variants are instances. *)
Fixpoint lstrip_by (p : ascii -> bool) (s : string) : string :=
  match s with
  | EmptyString => EmptyString
  | String c s' => if p c then lstrip_by p s' else s
  end.

Fixpoint rstrip_by (p : ascii -> bool) (s : string) : string :=
  match s with
  | EmptyString => EmptyString
  | String c s' =>
      match rstrip_by p s' with
      | EmptyString => if p c then EmptyString else String c EmptyString
      | r => String c r
      end
  end.

(** The first character of [s]. *)
Definition head_char (s : string) : option ascii :=
  match s with
  | EmptyString => None
  | String c _ => Some c
  end.

(** [c] is a character of [s]. *)
Fixpoint mem_char (c : ascii) (s : string) : bool :=
  match s with
  | EmptyString => false
  | String a s' => Ascii.eqb a c || mem_char c s'
  end.

(** Every character of [s] satisfies [p]. *)
Fixpoint all_chars (p : ascii -> bool) (s : string) : bool :=
  match s with
  | EmptyString => true
  | String a s' => p a && all_chars p s'
  end.

(** The context a call was made with. *)
Definition call_context (c : call) : string :=
  match c with
  | Generate context | Merge context => context
  end.

(** The task document [_update_tasks] makes for a file: the answer of the
    language model to the call the file is due, in the task document that
    was there or in a new one. *)
Definition task_document (TASK_FILE_REPO : string)
  (PM_NODE_fill : list call -> string -> string) (w : world) (name : string) : Document :=
  {| root_path := match files (tasks w) !! name with
                  | Some _ => relative_path (tasks w)
                  | None => TASK_FILE_REPO
                  end;
     filename := name;
     content := PM_NODE_fill (calls w) (call_context (decision w name)) |}.

(** The system design of a file, as its repository gives it. *)
Definition design_document (w : world) (name design : string) : Document :=
  {| root_path := relative_path (system_designs w); filename := name; content := design |}.

(** What a run has persisted of the documents it returns: each is stored in
    the task repository under its name, with its dependency on the system
    design of that name as the run found it, and exported under that name
    with the suffix [.md]. *)
Definition persisted (root_relative_path : Document -> string) (w0 : world)
  (docs : list (string * Document)) (w : world) : Prop :=
  forall n d,
    dict_get n docs = Some d ->
    filename d = n
    /\ files (tasks w) !! n = Some (content d)
    /\ (exists design,
          files (system_designs w0) !! n = Some design
          /\ dependencies (tasks w) !! n
             = Some [root_relative_path (design_document w0 n design)])
    /\ exports w !! (n +:+ ".md") = Some (content d).

(** A string without a line boundary. *)
Definition one_line (s : string) : bool :=
  all_chars (fun c => negb (Str.is_linebreak c)) s.

(** [s] is not the empty string. *)
Definition nonempty (s : string) : bool := negb (String.eqb s "").

(** The characters a regular expression reads as operators.  The parsers
    splice the language of a fence and the name of a tag into their
    patterns as they are, so the searches of [Re] are those of the code for
    a language or a tag that holds none of them. *)
Definition is_meta (c : ascii) : bool := Str.in_chars ".^$*+?{}[]\|()" c.

(** A string that a pattern reads as plain text. *)
Definition literal_pattern (s : string) : bool := all_chars (fun c => negb (is_meta c)) s.

(** * Properties *)

(** ** Occurrences, [find] and [split] *)

Lemma find_Some_occurs (sub s : string) (i : nat) :
  Str.find sub s = Some i ->
  occurs_at sub s i /\ forall k, k < i -> ~ occurs_at sub s k.
Proof.
  unfold Str.find, occurs_at. intros H. split.
  - exact (index_correct1 _ _ _ _ H).
  - intros k Hk. apply (index_correct2 _ _ _ _ H); lia.
Qed.

Lemma find_None_absent (sub s : string) :
  sub <> "" -> Str.find sub s = None -> forall i, ~ occurs_at sub s i.
Proof.
  unfold Str.find, occurs_at. intros Hne H i.
  apply (index_correct3 0 i _ _ H Hne). lia.
Qed.

Lemma contains_spec (sub s : string) :
  sub <> "" -> (Str.contains sub s = true <-> exists i, occurs_at sub s i).
Proof.
  intros Hne. unfold Str.contains.
  destruct (Str.find sub s) as [i|] eqn:E; split; intros H; try done.
  - exists i. by apply find_Some_occurs.
  - destruct H as [i Hi]. by destruct (find_None_absent _ _ Hne E i).
Qed.

Lemma index_cons_None (sub : string) (c : ascii) (s : string) :
  String.index 0 sub (String c s) = None ->
  String.prefix sub (String c s) = false /\ String.index 0 sub s = None.
Proof.
  cbn [String.index].
  destruct (String.prefix sub (String c s)); [done|].
  destruct (String.index 0 sub s); done.
Qed.

Lemma split_absent (sep s : string) :
  Str.find sep s = None -> Str.split sep s = [s].
Proof.
  unfold Str.find, Str.split. induction s as [|c s IH]; intros H.
  - done.
  - destruct (index_cons_None _ _ _ H) as [Hp Hi].
    cbn [Str.split_from]. rewrite Hp, (IH Hi). done.
Qed.

Lemma contains_false_find (sub s : string) :
  Str.contains sub s = false -> Str.find sub s = None.
Proof. unfold Str.contains. by destruct (Str.find sub s). Qed.

(** ** Heading blocks *)

Lemma dict_set_nil {V} (k : string) (v : V) : dict_set k v [] = [(k, v)].
Proof. done. Qed.

(** C3, as the code has it: for a text without the heading marker the
    segmenters return the empty mapping exactly when the text is empty or
    all whitespace; any other text is taken whole as one block, whose title
    is its first line and whose body is the rest. *)
Theorem parse_blocks_without_marker (text : string) :
  Str.contains "##" text = false ->
  (CodeParser.parse_blocks text = [] <-> Str.strip text = "")
  /\ (OutputParser.parse_blocks text = Ok [] <-> Str.strip text = "")
  /\ (Str.strip text <> "" ->
      CodeParser.parse_blocks text =
        [(Str.strip (fst (Str.split_nl_once text)),
          Str.strip (default "" (snd (Str.split_nl_once text))))]).
Proof.
  intros H. apply contains_false_find in H.
  unfold CodeParser.parse_blocks, OutputParser.parse_blocks.
  rewrite (split_absent _ _ H). cbn [fold_left OutputParser.parse_blocks_loop rbind].
  unfold CodeParser.parse_block_step, OutputParser.parse_block_step.
  destruct (String.eqb_spec (Str.strip text) "") as [E|E].
  - repeat split; intros; done.
  - destruct (Str.split_nl_once text) as [title [body|]] eqn:Es; cbn.
    + repeat split; try done.
      destruct (Str.last_char title); cbn; done.
    + repeat split; try done.
      assert (title = text) as ->; [|done].
      clear -Es. revert title Es. induction text as [|c s IH]; intros title Es.
      * by inversion Es.
      * cbn in Es. destruct (Ascii.eqb c "010"); [done|].
        destruct (Str.split_nl_once s) as [h t]. inversion Es; subst.
        f_equal. by apply IH.
Qed.

Lemma parse_blocks_without_marker_witness :
  CodeParser.parse_blocks (String "009" " ") = []
  /\ CodeParser.parse_blocks ("Title" +:+ String "010" "body") = [("Title", "body")].
Proof.
  split.
  - apply (parse_blocks_without_marker (String "009" " ")); reflexivity.
  - apply (parse_blocks_without_marker ("Title" +:+ String "010" "body"));
      [reflexivity | discriminate].
Defined.

(** C3, as stated, fails: a text without the heading marker that is not
    blank is not dropped. *)
Lemma parse_blocks_without_marker_not_empty :
  Str.contains "##" ("Title" +:+ String "010" "body") = false
  /\ CodeParser.parse_blocks ("Title" +:+ String "010" "body") = [("Title", "body")]
  /\ OutputParser.parse_blocks ("Title" +:+ String "010" "body") = Ok [("Title", "body")]
  /\ CodeParser.parse_blocks "no heading here" = [("no heading here", "")].
Proof. repeat split. Qed.

(** C9 on [OutputParser.parse_blocks]: a segment without a line feed is
    not unpacked into a title and an empty body, the call raises; so does a
    segment whose first line is empty. *)
Theorem OutputParser_parse_blocks_raises :
  OutputParser.parse_blocks "## Title"
    = Raise (ValueError "not enough values to unpack (expected 2, got 1)")
  /\ OutputParser.parse_blocks ("##" +:+ String "010" "body") = Raise IndexError
  /\ CodeParser.parse_blocks "## Title" = [("Title", "")].
Proof. repeat split. Qed.

(** [CodeParser.parse_blocks] on one segment without a line feed: the
    trimmed segment is the title and the body is empty. *)
Lemma CodeParser_parse_block_step_one_line (block_dict : list (string * string)) (block : string) :
  Str.strip block <> "" ->
  snd (Str.split_nl_once block) = None ->
  CodeParser.parse_block_step block_dict block = dict_set (Str.strip block) "" block_dict.
Proof.
  intros Hne Hnl. unfold CodeParser.parse_block_step.
  destruct (String.eqb_spec (Str.strip block) ""); [done|].
  destruct (Str.split_nl_once block) as [t [b|]]; cbn in *; done.
Qed.

(** ** Code fences *)

Lemma first_containing_none (block : string) (blocks : list (string * string)) :
  (forall k v, In (k, v) blocks -> Str.contains block k = false) ->
  CodeParser.first_containing block blocks = "".
Proof.
  induction blocks as [|[k v] rest IH]; intros H; [done|].
  cbn [CodeParser.first_containing].
  rewrite (H k v); [|by left]. apply IH. intros k' v' Hin. apply (H k' v'). by right.
Qed.

Lemma search_fence_empty (lang : string) : Re.search_fence lang "" = None.
Proof. done. Qed.

(** C5, as the code has it: for a language that the pattern reads as plain
    text, with a block title that no title of the segmented text contains,
    [parse_block] yields the empty string and the fence is looked for in
    that empty string, so the result is empty whatever the full text holds;
    the full text is searched only when no block title is given. *)
Theorem parse_code_unmatched_block (block text lang : string) :
  literal_pattern lang = true ->
  block <> "" ->
  (forall k v, In (k, v) (CodeParser.parse_blocks text) -> Str.contains block k = false) ->
  CodeParser.parse_block block text = ""
  /\ CodeParser.parse_code block text lang = ""
  /\ CodeParser.parse_code "" text lang
     = match Re.search_fence lang text with Some code => code | None => text end.
Proof.
  intros _ Hne H.
  assert (CodeParser.parse_block block text = "") as Hb
    by (by apply first_containing_none).
  split; [done|]. split; [|done].
  unfold CodeParser.parse_code.
  destruct (String.eqb_spec block ""); [done|].
  by rewrite Hb, search_fence_empty.
Qed.

Lemma parse_code_unmatched_block_witness :
  CodeParser.parse_code "Title"
    ("## Other" +:+ String "010" "```python" +:+ String "010" "print(1)" +:+ String "010" "```")
    "python" = "".
Proof.
  refine (proj1 (proj2 (parse_code_unmatched_block "Title" _ "python" _ _ _)));
    [reflexivity|discriminate|].
  intros k v H. vm_compute in H. destruct H as [H|[]]. by inversion H.
Defined.

(** C5, as stated, fails: the text holds a fence, no block title contains
    the one asked for, and the lenient extractor returns the empty string
    instead of the interior of the fence. *)
Lemma parse_code_no_fallback_to_full_text :
  let text := "```python" +:+ String "010" "print(1)" +:+ String "010" "```" in
  CodeParser.parse_blocks text = [("```python", "print(1)" +:+ String "010" "```")]
  /\ Str.contains "Title" "```python" = false
  /\ CodeParser.parse_code "" text "python" = "print(1)" +:+ String "010" ""
  /\ CodeParser.parse_code "Title" text "python" = "".
Proof. repeat split. Qed.

(** ** Characters, [get] and [rfind] *)

Lemma substring_one (s : string) (i : nat) (c : ascii) :
  String.substring i 1 s = String c "" <-> String.get i s = Some c.
Proof.
  revert i. induction s as [|a s IH]; intros i.
  - destruct i; cbn; split; discriminate.
  - destruct i as [|i]; cbn.
    + destruct s; cbn; split; intros H; by inversion H.
    + apply IH.
Qed.

Lemma find_char_spec (c : ascii) (s : string) (i : nat) :
  Str.find (String c "") s = Some i <->
  String.get i s = Some c /\ forall k, k < i -> String.get k s <> Some c.
Proof.
  split.
  - intros H. destruct (find_Some_occurs _ _ _ H) as [H1 H2]. split.
    + by apply substring_one.
    + intros k Hk Hg. apply (H2 k Hk). by apply substring_one.
  - intros [H1 H2]. destruct (Str.find (String c "") s) as [m|] eqn:E.
    + destruct (find_Some_occurs _ _ _ E) as [E1 E2].
      apply substring_one in E1.
      destruct (Nat.lt_trichotomy m i) as [Hlt|[->|Hlt]]; [|done|].
      * by destruct (H2 m Hlt).
      * destruct (E2 i Hlt). by apply substring_one.
    + destruct (find_None_absent (String c "") s ltac:(discriminate) E i).
      by apply substring_one.
Qed.

Lemma find_char_None (c : ascii) (s : string) :
  Str.find (String c "") s = None <-> forall k, String.get k s <> Some c.
Proof.
  split.
  - intros E k Hg.
    destruct (find_None_absent (String c "") s ltac:(discriminate) E k).
    by apply substring_one.
  - intros H. destruct (Str.find (String c "") s) as [m|] eqn:E; [|done].
    destruct (find_Some_occurs _ _ _ E) as [E1 _]. apply substring_one in E1.
    by destruct (H m).
Qed.

Lemma rfind_char_None (c : ascii) (s : string) :
  Str.rfind_char c s = None <-> forall k, String.get k s <> Some c.
Proof.
  induction s as [|a s IH]; cbn [Str.rfind_char].
  - split; [|done]. intros _ k. by destruct k.
  - destruct (Str.rfind_char c s) as [n|] eqn:E.
    + split; [done|]. intros H. exfalso.
      assert (forall k, String.get k s <> Some c) as H' by (intros k; apply (H (S k))).
      apply IH in H'. done.
    + destruct (Ascii.eqb_spec a c) as [->|Hne].
      * split; [done|]. intros H. by destruct (H 0).
      * split; [|done]. intros _ [|k]; cbn.
        -- congruence.
        -- by apply IH.
Qed.

Lemma rfind_char_spec (c : ascii) (s : string) (j : nat) :
  Str.rfind_char c s = Some j <->
  String.get j s = Some c /\ forall k, j < k -> String.get k s <> Some c.
Proof.
  revert j. induction s as [|a s IH]; intros j; cbn [Str.rfind_char].
  - split; [done|]. intros [H _]. by destruct j.
  - destruct (Str.rfind_char c s) as [n|] eqn:E.
    + destruct (proj1 (IH n) eq_refl) as [Hn1 Hn2]. split.
      * intros [= <-]. split; [done|]. intros [|k] Hk; [lia|]. cbn. apply Hn2. lia.
      * intros [H1 H2]. f_equal.
        destruct j as [|j].
        -- by destruct (H2 (S n) ltac:(lia)).
        -- cbn in H1. destruct (Nat.lt_trichotomy n j) as [Hlt|[->|Hlt]]; [|done|].
           ++ by destruct (Hn2 j Hlt).
           ++ by destruct (H2 (S n) ltac:(lia)).
    + pose proof (proj1 (rfind_char_None c s) E) as Hnone.
      destruct (Ascii.eqb_spec a c) as [->|Hne].
      * split.
        -- intros [= <-]. split; [done|]. intros [|k] Hk; [lia|]. cbn. apply Hnone.
        -- intros [H1 _]. destruct j as [|j]; [done|]. cbn in H1. by destruct (Hnone j).
      * split; [done|]. intros [H1 _]. destruct j as [|j]; cbn in H1.
        -- congruence.
        -- by destruct (Hnone j).
Qed.

(** ** Bracketed literals *)

Lemma substring_head (s : string) (i m : nat) (c : ascii) :
  String.get i s = Some c ->
  String.substring i (S m) s = String c (String.substring (S i) m s).
Proof.
  revert i. induction s as [|a s IH]; intros i H.
  - by destruct i.
  - destruct i as [|i]; cbn in H.
    + inversion H; subst. cbn. by destruct m.
    + cbn [String.substring]. by rewrite (IH i H).
Qed.

Lemma extract_struct_found (le : string -> result value) (text : string)
  (data_type : struct_type) (i j : nat) :
  Str.find (String (opening data_type) "") text = Some i ->
  Str.rfind_char (closing data_type) text = Some j ->
  OutputParser.extract_struct le text data_type
  = checked data_type (le (Str.slice text i (j + 1))).
Proof.
  intros Hi Hj. unfold OutputParser.extract_struct, checked.
  destruct data_type; cbn [opening closing] in Hi, Hj; rewrite Hi, Hj; done.
Qed.

Lemma extract_struct_not_found (le : string -> result value) (text : string)
  (data_type : struct_type) :
  Str.find (String (opening data_type) "") text = None
  \/ Str.rfind_char (closing data_type) text = None ->
  OutputParser.extract_struct le text data_type = Ok (empty_struct data_type).
Proof.
  unfold OutputParser.extract_struct.
  destruct data_type; cbn [opening closing]; intros [H|H]; rewrite H; try done;
    by destruct (Str.find _ text).
Qed.

(** C8: when the text holds an opening delimiter of the shape asked for and
    a closing one, [extract_struct] evaluates the span from the first
    opening delimiter to the last closing one as a literal; when either is
    missing it returns the empty container of that shape, the empty list for
    a list and the empty dict for a dict; and the nested list of the example
    is read back from between its prefix and suffix. *)
Theorem extract_struct_first_to_last (le : string -> result value) (text : string)
  (data_type : struct_type) :
  (forall i j,
      String.get i text = Some (opening data_type) ->
      (forall k, k < i -> String.get k text <> Some (opening data_type)) ->
      String.get j text = Some (closing data_type) ->
      (forall k, j < k -> String.get k text <> Some (closing data_type)) ->
      OutputParser.extract_struct le text data_type
      = checked data_type (le (Str.slice text i (j + 1))))
  /\ ((forall k, String.get k text <> Some (opening data_type))
      \/ (forall k, String.get k text <> Some (closing data_type)) ->
      OutputParser.extract_struct le text data_type
      = Ok (match data_type with list_type => VList [] | dict_type => VDict [] end))
  /\ OutputParser.extract_struct PyLiteral.literal_eval
       ("prefix [1, 2, [3, " +:+ quoted "a" +:+ "], {" +:+ quoted "k" +:+ ": 4}] suffix")
       list_type
     = Ok (VList [VInt 1; VInt 2; VList [VInt 3; VStr "a"]; VDict [(VStr "k", VInt 4)]]).
Proof.
  split; [|split].
  - intros i j Hi Hi' Hj Hj'. apply extract_struct_found.
    + by apply find_char_spec.
    + by apply rfind_char_spec.
  - intros H. change (match data_type with list_type => VList [] | dict_type => VDict [] end)
      with (empty_struct data_type).
    apply extract_struct_not_found. destruct H as [H|H].
    + left. by apply find_char_None.
    + right. by apply rfind_char_None.
  - vm_compute. reflexivity.
Qed.

Lemma extract_struct_first_to_last_witness :
  OutputParser.extract_struct PyLiteral.literal_eval "a {'x': [1]} b}" dict_type
  = checked dict_type (PyLiteral.literal_eval "{'x': [1]} b}")
  /\ OutputParser.extract_struct PyLiteral.literal_eval "no brackets" list_type = Ok (VList [])
  /\ OutputParser.extract_struct PyLiteral.literal_eval "{'x': 1" dict_type = Ok (VDict []).
Proof.
  split; [|split].
  - refine (proj1 (extract_struct_first_to_last PyLiteral.literal_eval
                     "a {'x': [1]} b}" dict_type) 2 14 _ _ _ _).
    + reflexivity.
    + intros k Hk. assert (k = 0 \/ k = 1) as [-> | ->] by lia; discriminate.
    + reflexivity.
    + intros k Hk. do 15 (destruct k as [|k]; [lia|]). discriminate.
  - refine (proj1 (proj2 (extract_struct_first_to_last PyLiteral.literal_eval
                            "no brackets" list_type)) _).
    left. intros k. do 11 (destruct k as [|k]; [discriminate|]). discriminate.
  - refine (proj1 (proj2 (extract_struct_first_to_last PyLiteral.literal_eval
                            "{'x': 1" dict_type)) _).
    right. intros k. do 7 (destruct k as [|k]; [discriminate|]). discriminate.
Defined.

(** A span found by [extract_struct] starts with the opening delimiter, or
    is empty when the last closing delimiter comes first. *)
Lemma slice_found (text : string) (c : ascii) (i j : nat) :
  Str.find (String c "") text = Some i ->
  Str.slice text i (j + 1) = ""
  \/ exists rest, Str.slice text i (j + 1) = String c rest.
Proof.
  intros Hi. apply find_char_spec in Hi as [Hi _]. unfold Str.slice.
  destruct (j + 1 - i) as [|m] eqn:E.
  - left. clear. revert i. induction text; intros [|i]; cbn; auto.
  - right. eexists. by apply substring_head.
Qed.

(** C4: when the span evaluates to a value whose top-level shape is not the
    one asked for, [extract_struct] raises the exception that reports that
    the extracted structure has not the shape, and returns no value. *)
Theorem extract_struct_shape_mismatch (le : string -> result value) (text : string)
  (data_type : struct_type) (i j : nat) (v : value) :
  head_determined le ->
  Str.find (String (opening data_type) "") text = Some i ->
  Str.rfind_char (closing data_type) text = Some j ->
  le (Str.slice text i (j + 1)) = Ok v ->
  shape_of v <> Some data_type ->
  OutputParser.extract_struct le text data_type
  = Raise (Exception ("Error while extracting and parsing the "
                      +:+ struct_type_str data_type
                      +:+ ": The extracted structure is not a "
                      +:+ struct_type_str data_type +:+ ".")).
Proof.
  intros [Hl Hd He] Hi Hj Hv Hshape.
  rewrite (extract_struct_found le text data_type i j Hi Hj), Hv.
  unfold checked.
  destruct (slice_found text _ i j Hi) as [E|[rest E]]; rewrite E in Hv.
  { by destruct (He v). }
  destruct data_type; cbn [opening] in Hv.
  - pose proof (Hl _ _ Hv) as Hnd.
    destruct v; cbn in *; try done.
  - pose proof (Hd _ _ Hv) as Hnl.
    destruct v; cbn in *; try done.
Qed.

(** *** The literal evaluator of [PyLiteral] has the three properties *)

Lemma parse_expr_lbrack (fuel : nat) (r r' : list PyLiteral.token) (v : value) :
  PyLiteral.parse_expr fuel (PyLiteral.TLBrack :: r) = Ok (v, r') -> is_list v = true.
Proof.
  destruct fuel as [|fuel]; cbn; [done|].
  destruct (PyLiteral.parse_items fuel PyLiteral.TRBrack r) as [[[items c] r1]|e]; cbn; [|done].
  by intros [= <- _].
Qed.

Lemma parse_expr_lbrace (fuel : nat) (r r' : list PyLiteral.token) (v : value) :
  PyLiteral.parse_expr fuel (PyLiteral.TLBrace :: r) = Ok (v, r') -> is_list v = false.
Proof.
  destruct fuel as [|fuel]; cbn; [done|].
  unfold rbind, PyLiteral.syntax_error. intros H.
  repeat (case_match; simplify_eq; try done).
Qed.

Lemma literal_eval_top (s : string) (v : value) :
  PyLiteral.literal_eval s = Ok v ->
  exists ts fuel v0 r,
    PyLiteral.lex (PyLiteral.lstrip_blanks s) PyLiteral.Idle = Some ts
    /\ PyLiteral.parse_expr fuel ts = Ok (v0, r)
    /\ (v = v0 \/ exists vs, v = VTuple vs).
Proof.
  unfold PyLiteral.literal_eval.
  destruct (PyLiteral.lex _ _) as [ts|]; [|done].
  cbv zeta. generalize (2 * length ts + 2). intros fuel. unfold rbind.
  destruct (PyLiteral.parse_expr fuel ts) as [[v0 r]|e] eqn:E; [|done].
  intros H. exists ts, fuel, v0, r. split; [done|]. split; [done|].
  destruct r as [|t r]; [left; congruence|].
  destruct t; try done.
  destruct (PyLiteral.parse_tail fuel fuel r) as [vs|]; [|done].
  right. eexists. by inversion H.
Qed.

Lemma lex_head (c : ascii) (t : PyLiteral.token) (s : string) (ts : list PyLiteral.token) :
  PyLiteral.punct c = Some t ->
  PyLiteral.lex (String c s) PyLiteral.Idle = Some ts ->
  exists r, ts = t :: r.
Proof.
  intros Hp. cbn [PyLiteral.lex PyLiteral.lex_step]. unfold PyLiteral.lex_idle. rewrite Hp.
  destruct (PyLiteral.lex s PyLiteral.Idle) as [rest|]; [|done].
  intros [= <-]. by eexists.
Qed.

Lemma PyLiteral_head_determined : head_determined PyLiteral.literal_eval.
Proof.
  split.
  - intros s v H. apply literal_eval_top in H as (ts & fuel & v0 & r & Hlex & Hp & Hv).
    destruct (lex_head "[" PyLiteral.TLBrack s ts eq_refl Hlex) as [r0 ->].
    apply parse_expr_lbrack in Hp.
    destruct Hv as [->|[vs ->]]; [by destruct v0|done].
  - intros s v H. apply literal_eval_top in H as (ts & fuel & v0 & r & Hlex & Hp & Hv).
    destruct (lex_head "{" PyLiteral.TLBrace s ts eq_refl Hlex) as [r0 ->].
    apply parse_expr_lbrace in Hp.
    destruct Hv as [->|[vs ->]]; done.
  - intros v. done.
Qed.

Lemma extract_struct_shape_mismatch_witness :
  OutputParser.extract_struct PyLiteral.literal_eval "x [1], [2] y" list_type
  = Raise (Exception "Error while extracting and parsing the <class 'list'>: The extracted structure is not a <class 'list'>.")
  /\ OutputParser.extract_struct PyLiteral.literal_eval "{1, 2}" dict_type
     = Raise (Exception "Error while extracting and parsing the <class 'dict'>: The extracted structure is not a <class 'dict'>.").
Proof.
  split.
  - apply (extract_struct_shape_mismatch PyLiteral.literal_eval "x [1], [2] y" list_type
             2 9 (VTuple [VList [VInt 1]; VList [VInt 2]]) PyLiteral_head_determined);
      [reflexivity | reflexivity | reflexivity | discriminate].
  - apply (extract_struct_shape_mismatch PyLiteral.literal_eval "{1, 2}" dict_type
             0 5 (VSet [VInt 1; VInt 2]) PyLiteral_head_determined);
      [reflexivity | reflexivity | reflexivity | discriminate].
Defined.

(** ** Dictionaries *)

Section DictFacts.
Context {V : Type}.
Implicit Types (d : list (string * V)) (k : string) (v : V).

Lemma dict_get_None d k : dict_get k d = None <-> ~ In k (dict_keys d).
Proof.
  induction d as [|[k' v'] d IH]; cbn; [tauto|].
  destruct (String.eqb_spec k' k) as [->|Hne]; [split; [done|tauto]|].
  rewrite IH. tauto.
Qed.

Lemma dict_set_fresh d k v : dict_get k d = None -> dict_set k v d = d ++ [(k, v)].
Proof.
  induction d as [|[k' v'] d IH]; cbn; [done|].
  destruct (String.eqb k' k); [done|]. intros H. by rewrite IH.
Qed.

Lemma dict_keys_set d k v x : In x (dict_keys (dict_set k v d)) <-> x = k \/ In x (dict_keys d).
Proof.
  induction d as [|[k' v'] d IH]; cbn; [intuition|].
  destruct (String.eqb_spec k' k) as [->|Hne]; cbn; [intuition|].
  rewrite IH. intuition.
Qed.

Lemma dict_keys_set_NoDup d k v : List.NoDup (dict_keys d) -> List.NoDup (dict_keys (dict_set k v d)).
Proof.
  induction d as [|[k' v'] d IH]; cbn; intros H.
  - constructor; [tauto|constructor].
  - inversion H as [|? ? Hnin Hnd]; subst.
    destruct (String.eqb_spec k' k) as [->|Hne]; cbn; [by constructor|].
    constructor; [|by apply IH].
    intros Hin. apply (proj1 (dict_keys_set d k v k')) in Hin as [->|Hin]; done.
Qed.

End DictFacts.

Lemma OutputParser_parse_blocks_loop_NoDup (blocks : list string)
  (acc out : list (string * string)) :
  List.NoDup (dict_keys acc) ->
  OutputParser.parse_blocks_loop blocks acc = Ok out ->
  List.NoDup (dict_keys out).
Proof.
  revert acc. induction blocks as [|b bs IH]; intros acc Hnd; cbn.
  - by intros [= <-].
  - destruct (OutputParser.parse_block_step acc b) as [acc'|e] eqn:E; cbn; [|done].
    apply IH. unfold OutputParser.parse_block_step in E.
    repeat (case_match; simplify_eq; try done); by apply dict_keys_set_NoDup.
Qed.

Lemma OutputParser_parse_blocks_NoDup (text : string) (out : list (string * string)) :
  OutputParser.parse_blocks text = Ok out -> List.NoDup (dict_keys out).
Proof. apply OutputParser_parse_blocks_loop_NoDup. constructor. Qed.

Lemma CodeParser_parse_blocks_NoDup (text : string) :
  List.NoDup (dict_keys (CodeParser.parse_blocks text)).
Proof.
  unfold CodeParser.parse_blocks.
  assert (List.NoDup (dict_keys (@nil (string * string)))) as H by constructor.
  revert H. generalize (@nil (string * string)).
  induction (Str.split "##" text) as [|b bs IH]; intros acc Hnd; cbn; [done|].
  apply IH. unfold CodeParser.parse_block_step.
  repeat (case_match; simplify_eq; try done); by apply dict_keys_set_NoDup.
Qed.

(** ** The typed field mapper *)

Section Mapper.
Variable le : string -> result value.
Variable mapping : list (string * typing_define).

Let entry := parsed_entry le mapping.

Lemma map_blocks_fold (blocks : list (string * string)) (acc : list (string * value)) :
  List.NoDup (dict_keys blocks) ->
  (forall k, In k (dict_keys blocks) -> ~ In k (dict_keys acc)) ->
  fold_left
    (fun parsed_data '(block, content) =>
       dict_set block (OutputParser.parse_field le mapping block content) parsed_data)
    blocks acc
  = acc ++ List.map entry blocks.
Proof.
  revert acc. induction blocks as [|[t b] blocks IH]; intros acc Hnd Hfresh; cbn.
  - by rewrite app_nil_r.
  - inversion Hnd as [|? ? Hnin Hnd']; subst.
    rewrite dict_set_fresh by (apply dict_get_None, Hfresh; by left).
    rewrite IH; [by rewrite <- app_assoc|done|].
    intros k Hk. unfold dict_keys. rewrite map_app, in_app_iff. cbn.
    intros [Hin|[<-|[]]]; [|done].
    apply (Hfresh k); [by right|done].
Qed.

Lemma map_blocks_NoDup (blocks : list (string * string)) :
  List.NoDup (dict_keys blocks) ->
  OutputParser.map_blocks le mapping blocks = List.map entry blocks.
Proof.
  intros Hnd. unfold OutputParser.map_blocks.
  rewrite map_blocks_fold; [done..|]. intros k _ [].
Qed.

Lemma map_blocks_keys (blocks : list (string * string)) (k : string) :
  In k (dict_keys (OutputParser.map_blocks le mapping blocks)) <-> In k (dict_keys blocks).
Proof.
  unfold OutputParser.map_blocks.
  assert (forall acc : list (string * value),
    In k (dict_keys (fold_left
      (fun parsed_data '(block, content) =>
         dict_set block (OutputParser.parse_field le mapping block content) parsed_data)
      blocks acc)) <-> In k (dict_keys acc) \/ In k (dict_keys blocks)) as H.
  { induction blocks as [|[t b] blocks IH]; intros acc; [cbn; tauto|].
    cbn [fold_left]. rewrite IH, dict_keys_set. cbn. intuition. }
  rewrite H. cbn. tauto.
Qed.

End Mapper.

Lemma prefix_refl (s : string) : String.prefix s s = true.
Proof. induction s as [|a s IH]; cbn; [done|]. by destruct (ascii_dec a a). Qed.

Lemma contains_refl (s : string) : Str.contains s s = true.
Proof.
  unfold Str.contains, Str.find. destruct s as [|a s]; [done|].
  cbn [String.index]. by rewrite prefix_refl.
Qed.

(** C6, as the code has it: the mapper goes over the blocks and looks each
    title up in the schema by equality of names; it returns one entry per
    block, under the title of the block and in block order; so a declared
    field that no block title contains (indeed, that no block title
    equals) has no key in the result. *)
Theorem map_blocks_by_title (le : string -> result value)
  (mapping : list (string * typing_define)) (blocks : list (string * string)) :
  (List.NoDup (dict_keys blocks) ->
   OutputParser.map_blocks le mapping blocks = List.map (parsed_entry le mapping) blocks)
  /\ (forall field,
        (forall title body, In (title, body) blocks -> Str.contains field title = false) ->
        dict_get field (OutputParser.map_blocks le mapping blocks) = None)
  /\ (forall field,
        dict_get field (OutputParser.map_blocks le mapping blocks) = None
        <-> ~ In field (dict_keys blocks)).
Proof.
  assert (forall field,
        dict_get field (OutputParser.map_blocks le mapping blocks) = None
        <-> ~ In field (dict_keys blocks)) as Hkeys.
  { intros field. by rewrite dict_get_None, map_blocks_keys. }
  split; [apply map_blocks_NoDup|]. split; [|done].
  intros field H. apply Hkeys. intros Hin.
  apply in_map_iff in Hin as [[title body] [Ht Hin]]. cbn in Ht. subst.
  specialize (H _ _ Hin). by rewrite contains_refl in H.
Qed.

Lemma map_blocks_by_title_witness :
  OutputParser.map_blocks PyLiteral.literal_eval
    [("Task list", Plain T_List_str); ("Logic", Plain T_str)]
    [("Task list", "['a', 'b']"); ("Notes", "x")]
  = [("Task list", VList [VStr "a"; VStr "b"]); ("Notes", VStr "x")]
  /\ dict_get "Logic"
       (OutputParser.map_blocks PyLiteral.literal_eval
          [("Task list", Plain T_List_str); ("Logic", Plain T_str)]
          [("Task list", "['a', 'b']"); ("Notes", "x")]) = None.
Proof.
  split.
  - refine (proj1 (map_blocks_by_title PyLiteral.literal_eval _ _) _).
    repeat constructor; cbn; intuition discriminate.
  - refine (proj1 (proj2 (map_blocks_by_title PyLiteral.literal_eval _ _)) "Logic" _).
    intros title body H. cbn in H.
    destruct H as [H|[H|[]]]; inversion H; reflexivity.
Defined.

(** C6, as stated, fails: the field [Task] is contained in the title of a
    block, the mapper of section 4.5 would return the list under the key
    [Task], and the code returns the unparsed text under the title. *)
Lemma map_blocks_no_substring_match :
  let schema := [("Task", Plain T_List_str)] in
  let blocks := [("Task list", "['a', 'b']")] in
  Spec.locate "Task" blocks = Some "['a', 'b']"
  /\ Spec.map PyLiteral.literal_eval blocks schema = [("Task", VList [VStr "a"; VStr "b"])]
  /\ OutputParser.map_blocks PyLiteral.literal_eval schema blocks
     = [("Task list", VStr "['a', 'b']")]
  /\ dict_get "Task" (OutputParser.map_blocks PyLiteral.literal_eval schema blocks) = None.
Proof. repeat split. Qed.

(** ** The [[CONTENT]] span *)

Lemma find_first (sub s : string) (i : nat) :
  sub <> "" -> occurs_at sub s i -> (forall k, k < i -> ~ occurs_at sub s k) ->
  Str.find sub s = Some i.
Proof.
  intros Hne H1 H2. destruct (Str.find sub s) as [m|] eqn:E.
  - destruct (find_Some_occurs _ _ _ E) as [E1 E2].
    destruct (Nat.lt_trichotomy m i) as [Hlt|[->|Hlt]]; [|done|].
    + by destruct (H2 m Hlt).
    + by destruct (E2 i Hlt).
  - by destruct (find_None_absent sub s Hne E i).
Qed.

Lemma substring_drop (s : string) (n k l : nat) :
  String.substring k l (Str.drop n s) = String.substring (n + k) l s.
Proof.
  revert s. induction n as [|n IH]; intros s; [done|].
  destruct s as [|a s]; cbn [Str.drop]; [|by rewrite IH].
  destruct k, l; done.
Qed.

Lemma extract_content_span (data : string) (i j : nat) :
  occurs_at "[CONTENT]" data i ->
  (forall k, k < i -> ~ occurs_at "[CONTENT]" data k) ->
  occurs_at "[/CONTENT]" data (i + 9 + j) ->
  (forall k, k < j -> ~ occurs_at "[/CONTENT]" data (i + 9 + k)) ->
  OutputParser.extract_content data "CONTENT" = Str.strip (String.substring (i + 9) j data).
Proof.
  intros H1 H2 H3 H4. unfold OutputParser.extract_content, Re.search_tag.
  change ("[" +:+ "CONTENT" +:+ "]") with "[CONTENT]".
  change ("[/" +:+ "CONTENT" +:+ "]") with "[/CONTENT]".
  rewrite (find_first "[CONTENT]" data i) by done.
  change (Str.len "[CONTENT]") with 9.
  rewrite (find_first "[/CONTENT]" (Str.drop (i + 9) data) j); [| done | |].
  - f_equal. rewrite substring_drop. f_equal. lia.
  - unfold occurs_at. by rewrite substring_drop.
  - intros k Hk. unfold occurs_at. rewrite substring_drop. by apply H4.
Qed.

Lemma extract_content_no_tag (data : string) :
  Str.contains "[CONTENT]" data = false ->
  OutputParser.extract_content data "CONTENT" = OutputParser.no_content_found.
Proof.
  intros H. apply contains_false_find in H.
  unfold OutputParser.extract_content, Re.search_tag.
  change ("[" +:+ "CONTENT" +:+ "]") with "[CONTENT]". by rewrite H.
Qed.

Lemma parse_field_undeclared (le : string -> result value)
  (mapping : list (string * typing_define)) (title body : string) :
  dict_get title mapping = None ->
  OutputParser.parse_field le mapping title body = VStr (fence_stripped body).
Proof.
  intros H. unfold OutputParser.parse_field, fence_stripped, CodeParser.parse_code,
    OutputParser.parse_code.
  rewrite H. cbn. by destruct (Re.search_fence "" body).
Qed.

(** C10: [parse_data_with_mapping] segments the span [extract_content] takes
    from between the [[CONTENT]] and [[/CONTENT]] markers, not the input,
    and when the segmentation succeeds its result has one entry per block of
    that span, in order and under the title of the block, whether the schema
    declares the title or not; for a title the schema does not declare the
    value is the body with its fence stripped. *)
Theorem parse_data_with_mapping_keeps_every_block (le : string -> result value)
  (data : string) (mapping : list (string * typing_define)) :
  OutputParser.parse_data_with_mapping le data mapping
  = rbind (OutputParser.parse_blocks (OutputParser.extract_content data "CONTENT"))
      (fun blocks => Ok (List.map (parsed_entry le mapping) blocks))
  /\ (forall title body,
        dict_get title mapping = None ->
        parsed_entry le mapping (title, body) = (title, VStr (fence_stripped body)))
  /\ (forall i j,
        occurs_at "[CONTENT]" data i ->
        (forall k, k < i -> ~ occurs_at "[CONTENT]" data k) ->
        occurs_at "[/CONTENT]" data (i + 9 + j) ->
        (forall k, k < j -> ~ occurs_at "[/CONTENT]" data (i + 9 + k)) ->
        OutputParser.extract_content data "CONTENT"
        = Str.strip (String.substring (i + 9) j data)).
Proof.
  split; [|split].
  - unfold OutputParser.parse_data_with_mapping.
    destruct (OutputParser.parse_blocks _) as [blocks|e] eqn:E; cbn; [|done].
    f_equal. apply map_blocks_NoDup. by apply OutputParser_parse_blocks_NoDup in E.
  - intros title body H. unfold parsed_entry. cbn. by rewrite parse_field_undeclared.
  - apply extract_content_span.
Qed.

Lemma parse_data_with_mapping_keeps_every_block_witness :
  let data := "x [CONTENT]## A" +:+ String "010" "foo" +:+ String "010" "## B:"
              +:+ String "010" "```" +:+ String "010" "bar```[/CONTENT] y" in
  OutputParser.extract_content data "CONTENT" = Str.strip (String.substring 11 25 data)
  /\ parsed_entry PyLiteral.literal_eval [("A", Plain T_str)] ("B", "```" +:+ String "010" "bar```")
     = ("B", VStr "bar")
  /\ OutputParser.parse_data_with_mapping PyLiteral.literal_eval data [("A", Plain T_str)]
     = Ok [("A", VStr "foo"); ("B", VStr "bar")].
Proof.
  intros data. split; [|split].
  - refine (proj2 (proj2 (parse_data_with_mapping_keeps_every_block
                            PyLiteral.literal_eval data [])) 2 25 _ _ _ _).
    + reflexivity.
    + intros k Hk. assert (k = 0 \/ k = 1) as [-> | ->] by lia; discriminate.
    + reflexivity.
    + intros k Hk. do 25 (destruct k as [|k]; [discriminate|]). lia.
  - refine (proj1 (proj2 (parse_data_with_mapping_keeps_every_block
                            PyLiteral.literal_eval data [("A", Plain T_str)])) "B" _ _).
    reflexivity.
  - rewrite (proj1 (parse_data_with_mapping_keeps_every_block
                      PyLiteral.literal_eval data [("A", Plain T_str)])).
    reflexivity.
Defined.

(** ** The requirements file *)

Lemma add_lines_spec (lines : list string) (packages : gset string) (x : string) :
  x ∈ WriteTasks.add_lines lines packages <-> x ∈ packages \/ (x <> "" /\ In x lines).
Proof.
  revert packages. induction lines as [|l lines IH]; intros packages; cbn.
  - tauto.
  - destruct (String.eqb_spec l "") as [->|Hne]; rewrite IH.
    + intuition congruence.
    + rewrite elem_of_union, elem_of_singleton. intuition congruence.
Qed.

Section Requirements.
Context (PACKAGE_REQUIREMENTS_FILENAME : string) (json_loads : string -> result json).

(** C7, as the code has it: the requirements file is rewritten with the
    members, each once and joined by line feeds, of the union of the
    packages of the document (all of them, the empty string included) with
    the non-empty lines of the file as it was; a file that does not exist
    counts as empty. *)
Theorem update_requirements_union (doc : Document) (w : world) (m : json)
  (packages : gset string) :
  json_loads (content doc) = Ok m ->
  WriteTasks.required_packages m = Ok packages ->
  exists l,
    WriteTasks._update_requirements PACKAGE_REQUIREMENTS_FILENAME json_loads doc w
    = (Ok tt, WriteTasks.save_root PACKAGE_REQUIREMENTS_FILENAME (Str.join (String "010" "") l) w)
    /\ List.NoDup l
    /\ forall x,
         In x l <->
         x ∈ packages
         \/ (x <> ""
             /\ In x (Str.splitlines
                        (default "" (files (project_root w) !! PACKAGE_REQUIREMENTS_FILENAME)))).
Proof.
  intros Hm Hp.
  exists (elements (WriteTasks.merged_requirements PACKAGE_REQUIREMENTS_FILENAME packages
                      (repo_get (project_root w) PACKAGE_REQUIREMENTS_FILENAME))).
  split; [|split].
  - unfold WriteTasks._update_requirements, mbind, M_bind, bind, lift, gets, modify.
    by rewrite Hm, Hp.
  - apply NoDup_ListNoDup, NoDup_elements.
  - intros x. rewrite <- list_elem_of_In, elem_of_elements.
    unfold WriteTasks.merged_requirements, repo_get. rewrite add_lines_spec.
    by destruct (files (project_root w) !! PACKAGE_REQUIREMENTS_FILENAME).
Qed.

End Requirements.

Lemma update_requirements_union_witness :
  let w := Sample.root_only [("requirements.txt", "a" +:+ String "010" "b")] in
  let doc := {| root_path := "docs/tasks"; filename := "1.json"; content := "{}" |} in
  exists l,
    WriteTasks._update_requirements "requirements.txt" (Sample.loads ["b"; "c"]) doc w
    = (Ok tt, WriteTasks.save_root "requirements.txt" (Str.join (String "010" "") l) w)
    /\ List.NoDup l
    /\ forall x, In x l <-> x = "a" \/ x = "b" \/ x = "c".
Proof.
  intros w doc.
  destruct (update_requirements_union "requirements.txt" (Sample.loads ["b"; "c"]) doc w
              (JObj [(Sample.packages_key, JArr [JStr "b"; JStr "c"])])
              ({["b"]} ∪ ({["c"]} ∪ ∅)) eq_refl eq_refl) as (l & Hrun & Hnd & Hl).
  exists l. split; [exact Hrun|]. split; [exact Hnd|].
  intros x. rewrite Hl.
  change (Str.splitlines _) with ["a"; "b"]. cbn [In].
  rewrite !elem_of_union, !elem_of_singleton, elem_of_empty.
  split; [intuition|]. intros [-> | [-> | ->]]; [right; split; [discriminate|tauto] | tauto..].
Defined.

Lemma update_requirements_no_file :
  let w := Sample.root_only [] in
  let doc := {| root_path := "docs/tasks"; filename := "1.json"; content := "{}" |} in
  WriteTasks._update_requirements "requirements.txt" (Sample.loads ["c"]) doc w
  = (Ok tt, WriteTasks.save_root "requirements.txt" "c" w).
Proof. vm_compute. reflexivity. Qed.

(** C7, as stated, fails: an empty string among the packages of the
    document is kept in the set the file is written from, while the union of
    the non-empty entries leaves it out. *)
Lemma requirements_keep_empty_package :
  let new_items : gset string := {[""]} ∪ ({["c"]} ∪ ∅) in
  let existing := {| root_path := "."; filename := "requirements.txt";
                     content := "a" +:+ String "010" "b" |} in
  WriteTasks.required_packages (JObj [(Sample.packages_key, JArr [JStr ""; JStr "c"])])
  = Ok new_items
  /\ ("" ∈ WriteTasks.merged_requirements "requirements.txt" new_items (Some existing))
  /\ ("" ∉ Spec.add_all (Str.splitlines (content existing)) new_items)
  /\ (WriteTasks.merged_requirements "requirements.txt" new_items (Some existing)
      <> Spec.add_all (Str.splitlines (content existing)) new_items).
Proof.
  intros new_items existing.
  assert ("" ∈ WriteTasks.merged_requirements "requirements.txt" new_items (Some existing)) as Hin.
  { unfold WriteTasks.merged_requirements. apply add_lines_spec. left.
    unfold new_items. set_solver. }
  assert ("" ∉ Spec.add_all (Str.splitlines (content existing)) new_items) as Hout.
  { unfold Spec.add_all. change (Str.splitlines _) with ["a"; "b"].
    rewrite elem_of_union, elem_of_filter, elem_of_list_to_set, list_elem_of_In.
    cbn. intuition discriminate. }
  repeat split; [done..|]. intros E. by rewrite E in Hin.
Qed.

(** ** The pipeline *)

Lemma format_template (old_tasks new_design : string) :
  format NEW_REQ_TEMPLATE [("context", new_design); ("old_tasks", old_tasks)]
  = Ok (merge_context old_tasks new_design).
Proof. reflexivity. Qed.

Section PipelineFacts.
Context (TASK_FILE_REPO PACKAGE_REQUIREMENTS_FILENAME : string)
  (PM_NODE_fill : list call -> string -> string)
  (json_loads : string -> result json)
  (root_relative_path : Document -> string).

Lemma update_tasks_missing (name : string) (w : world) :
  files (system_designs w) !! name = None ->
  WriteTasks._update_tasks TASK_FILE_REPO PACKAGE_REQUIREMENTS_FILENAME PM_NODE_fill
    json_loads root_relative_path name w
  = (Raise AttributeError, w).
Proof.
  intros H. run_monad. rewrite H.
  destruct (files (tasks w) !! name); reflexivity.
Qed.

#[local] Abbreviation decodable := (answers_decodable PM_NODE_fill json_loads).

#[local] Abbreviation update_tasks :=
  (WriteTasks._update_tasks TASK_FILE_REPO PACKAGE_REQUIREMENTS_FILENAME PM_NODE_fill
     json_loads root_relative_path).
#[local] Abbreviation run_designs :=
  (WriteTasks.run_designs TASK_FILE_REPO PACKAGE_REQUIREMENTS_FILENAME PM_NODE_fill
     json_loads root_relative_path).
#[local] Abbreviation run_tasks :=
  (WriteTasks.run_tasks TASK_FILE_REPO PACKAGE_REQUIREMENTS_FILENAME PM_NODE_fill
     json_loads root_relative_path).
#[local] Abbreviation run :=
  (WriteTasks.run TASK_FILE_REPO PACKAGE_REQUIREMENTS_FILENAME PM_NODE_fill
     json_loads root_relative_path).

Lemma update_tasks_present (name : string) (w : world) (design : string) :
  files (system_designs w) !! name = Some design ->
  exists r w',
    WriteTasks._update_tasks TASK_FILE_REPO PACKAGE_REQUIREMENTS_FILENAME PM_NODE_fill
      json_loads root_relative_path name w = (r, w')
    /\ calls w' = calls w ++ [decision w name]
    /\ system_designs w' = system_designs w
    /\ changed_files (tasks w') = changed_files (tasks w)
    /\ (forall n, n <> name -> files (tasks w') !! n = files (tasks w) !! n)
    /\ (decodable -> exists d, r = Ok d).
Proof.
  intros H. unfold decision. rewrite H. cbn [default].
  run_monad. rewrite H.
  destruct (files (tasks w) !! name) as [old|] eqn:Ht; run_monad;
    [rewrite format_template; run_monad|];
    match goal with
    | |- context [json_loads (PM_NODE_fill ?h ?c)] =>
        destruct (json_loads (PM_NODE_fill h c)) as [m|e] eqn:Hm;
        [destruct (WriteTasks.required_packages m) as [p|e] eqn:Hp|]
    end;
    (eexists _, _; split; [reflexivity|]; world_fields;
     repeat split; try done;
     [ intros n Hn; by rewrite lookup_insert_ne
     | intros Hd;
       first [ by eauto
             | match goal with
               | Hm : json_loads (PM_NODE_fill ?h ?c) = _ |- _ =>
                   destruct (Hd h c) as (m' & p' & Hm' & Hp'); congruence
               end ] ]).
Qed.

Lemma run_designs_cons (name : string) (rest : list string)
  (docs : list (string * Document)) (w : world) :
  run_designs (name :: rest) docs w
  = match update_tasks name w with
    | (Ok task_doc, w') => run_designs rest (dict_set name task_doc docs) w'
    | (Raise e, w') => (Raise e, w')
    end.
Proof. reflexivity. Qed.

Lemma run_designs_app (a b : list string) (docs : list (string * Document)) (w : world) :
  run_designs (a ++ b) docs w
  = match run_designs a docs w with
    | (Ok docs', w') => run_designs b docs' w'
    | (Raise e, w') => (Raise e, w')
    end.
Proof.
  revert docs w. induction a as [|name a IH]; intros docs w; [done|].
  rewrite <- app_comm_cons, !run_designs_cons.
  destruct (update_tasks name w) as [[d|e] w1]; [apply IH|done].
Qed.

Lemma run_designs_keys (names : list string) (docs docs' : list (string * Document))
  (w w' : world) :
  run_designs names docs w = (Ok docs', w') ->
  forall k, In k (dict_keys docs') <-> In k (dict_keys docs) \/ In k names.
Proof.
  revert docs w. induction names as [|name names IH]; intros docs w.
  - intros [= <- _] k. cbn. tauto.
  - rewrite run_designs_cons.
    destruct (update_tasks name w) as [[d|e] w1]; [|done].
    intros Hr k. rewrite (IH _ _ Hr k), dict_keys_set. cbn. intuition.
Qed.

Lemma existsb_eqb_In (name : string) (seen : list string) :
  existsb (String.eqb name) seen = true <-> In name seen.
Proof.
  rewrite existsb_exists. split.
  - intros (x & Hx & E). apply String.eqb_eq in E. by subst.
  - intros H. exists name. split; [done|]. apply String.eqb_refl.
Qed.

Lemma second_queue_ext (names s1 s2 : list string) :
  (forall x, In x s1 <-> In x s2) -> second_queue names s1 = second_queue names s2.
Proof.
  revert s1 s2. induction names as [|name names IH]; intros s1 s2 H; [done|].
  cbn [second_queue].
  assert (existsb (String.eqb name) s1 = existsb (String.eqb name) s2) as ->.
  { apply eq_true_iff_eq. rewrite !existsb_eqb_In. apply H. }
  destruct (existsb (String.eqb name) s2); [by apply IH|].
  f_equal. apply IH. intros x. rewrite !in_app_iff, H. tauto.
Qed.

Lemma run_tasks_queue (names : list string) (docs : list (string * Document)) (w : world) :
  run_tasks names docs w = run_designs (second_queue names (dict_keys docs)) docs w.
Proof.
  revert docs w. induction names as [|name names IH]; intros docs w; [done|].
  cbn [WriteTasks.run_tasks second_queue].
  destruct (dict_get name docs) as [d|] eqn:E.
  - assert (existsb (String.eqb name) (dict_keys docs) = true) as ->; [|apply IH].
    apply existsb_eqb_In. destruct (in_dec String.string_dec name (dict_keys docs)) as [|Hn]; [done|].
    apply dict_get_None in Hn. congruence.
  - assert (existsb (String.eqb name) (dict_keys docs) = false) as ->.
    { apply not_true_is_false. rewrite existsb_eqb_In. by apply dict_get_None. }
    rewrite run_designs_cons.
    change (match update_tasks name w with
            | (Ok task_doc, w') => run_tasks names (dict_set name task_doc docs) w'
            | (Raise e, w') => (Raise e, w')
            end = match update_tasks name w with
                  | (Ok task_doc, w') =>
                      run_designs (second_queue names (dict_keys docs ++ [name]))
                        (dict_set name task_doc docs) w'
                  | (Raise e, w') => (Raise e, w')
                  end).
    destruct (update_tasks name w) as [[d|e] w1]; [|done].
    rewrite IH. f_equal. rewrite dict_set_fresh by done.
    unfold dict_keys. by rewrite map_app.
Qed.

Lemma run_as_queue (w : world) : run w = run_designs (queue w) [] w.
Proof.
  unfold queue. rewrite run_designs_app.
  change (match run_designs (changed_files (system_designs w)) [] w with
          | (Ok docs, w') => run_tasks (changed_files (tasks w)) docs w'
          | (Raise e, w') => (Raise e, w')
          end = match run_designs (changed_files (system_designs w)) [] w with
                | (Ok docs, w') =>
                    run_designs (second_queue (changed_files (tasks w))
                                   (changed_files (system_designs w))) docs w'
                | (Raise e, w') => (Raise e, w')
                end).
  destruct (run_designs (changed_files (system_designs w)) [] w) as [[docs|e] w1] eqn:E;
    [|done].
  rewrite run_tasks_queue. f_equal. apply second_queue_ext.
  intros x. rewrite (run_designs_keys _ _ _ _ _ E). cbn. tauto.
Qed.


Lemma second_queue_fresh (names seen : list string) :
  List.NoDup (second_queue names seen)
  /\ forall x, In x (second_queue names seen) -> ~ In x seen.
Proof.
  revert seen. induction names as [|name names IH]; intros seen; cbn [second_queue].
  - split; [constructor|intros x []].
  - destruct (existsb (String.eqb name) seen) eqn:E; [apply IH|].
    destruct (IH (seen ++ [name])) as [Hnd Hfresh]. split.
    + constructor; [|done]. intros Hin. apply (Hfresh _ Hin), in_app_iff. right. by left.
    + intros x [<-|Hin].
      * rewrite <- existsb_eqb_In. by rewrite E.
      * intros Hs. apply (Hfresh _ Hin), in_app_iff. by left.
Qed.

Lemma queue_NoDup (w : world) :
  List.NoDup (changed_files (system_designs w)) -> List.NoDup (queue w).
Proof.
  intros H. unfold queue.
  destruct (second_queue_fresh (changed_files (tasks w)) (changed_files (system_designs w)))
    as [Hnd Hfresh].
  apply NoDup_ListNoDup, NoDup_app. repeat split; [by apply NoDup_ListNoDup| |by apply NoDup_ListNoDup].
  intros x Hx Hx'. apply list_elem_of_In in Hx, Hx'. by apply (Hfresh x).
Qed.

Lemma decision_stable (w w' : world) (name : string) :
  system_designs w' = system_designs w ->
  files (tasks w') !! name = files (tasks w) !! name ->
  decision w' name = decision w name.
Proof. intros Hs Ht. unfold decision. by rewrite Hs, Ht. Qed.

Lemma run_designs_calls (names : list string) (docs : list (string * Document)) (w : world) :
  List.NoDup names ->
  (forall n, In n names -> is_Some (files (system_designs w) !! n)) ->
  decodable ->
  exists docs' w',
    run_designs names docs w = (Ok docs', w')
    /\ calls w' = calls w ++ List.map (decision w) names
    /\ system_designs w' = system_designs w
    /\ (forall n, ~ In n names -> files (tasks w') !! n = files (tasks w) !! n).
Proof.
  intros Hnd Hsys Hdec. revert docs w Hsys.
  induction Hnd as [|name names Hnin Hnd IH]; intros docs w Hsys.
  - exists docs, w. cbn. by rewrite app_nil_r.
  - destruct (Hsys name) as [design Hdesign]; [by left|].
    destruct (update_tasks_present name w design Hdesign)
      as (r & w1 & Hrun & Hcalls & Hs & _ & Hframe & Hok).
    destruct (Hok Hdec) as [d ->].
    destruct (IH (dict_set name d docs) w1) as (docs' & w' & Hrun' & Hcalls' & Hs' & Hframe').
    { intros n Hn. rewrite Hs. apply Hsys. by right. }
    exists docs', w'. rewrite run_designs_cons, Hrun. split; [done|]. split; [|split].
    + rewrite Hcalls', Hcalls, <- app_assoc. cbn [List.map app]. do 2 f_equal.
      apply map_ext_in. intros n Hn. apply decision_stable; [done|].
      apply Hframe. intros ->. done.
    + by rewrite Hs'.
    + intros n Hn. rewrite Hframe' by (intros Hin; apply Hn; by right).
      apply Hframe. intros ->. apply Hn. by left.
Qed.


(** C1: over the processing queue of a run whose files all have their
    system design, the calls made are, file by file and in queue order, a
    generation from the content of the design exactly when the file has no
    task document, and otherwise a merge on the context that
    [NEW_REQ_TEMPLATE] gives: the task document under the heading Legacy
    Content, then the design under the heading New Requirements. *)
Theorem run_generate_or_merge (w : world) :
  List.NoDup (changed_files (system_designs w)) ->
  (forall n, In n (queue w) -> is_Some (files (system_designs w) !! n)) ->
  decodable ->
  (exists docs w',
      run w = (Ok docs, w')
      /\ calls w' = calls w ++ List.map (decision w) (queue w)
      /\ forall k, In k (dict_keys docs) <-> In k (queue w))
  /\ (forall n design,
        files (system_designs w) !! n = Some design ->
        (files (tasks w) !! n = None -> decision w n = Generate design)
        /\ (forall old_tasks,
              files (tasks w) !! n = Some old_tasks ->
              decision w n = Merge (merge_context old_tasks design)
              /\ format NEW_REQ_TEMPLATE [("context", design); ("old_tasks", old_tasks)]
                 = Ok (merge_context old_tasks design))).
Proof.
  intros Hnd Hsys Hdec. split.
  - destruct (run_designs_calls (queue w) [] w (queue_NoDup w Hnd) Hsys Hdec)
      as (docs & w' & Hrun & Hcalls & _ & _).
    exists docs, w'. rewrite run_as_queue. split; [done|]. split; [done|].
    intros k. rewrite (run_designs_keys _ _ _ _ _ Hrun k). cbn. tauto.
  - intros n design Hd. unfold decision. rewrite Hd. cbn [default]. split.
    + by intros ->.
    + intros old_tasks ->. split; [done|apply format_template].
Qed.

(** C2, as the code has it: when a file of the queue has no system design,
    the run raises [AttributeError] at that file and returns no mapping;
    the files before it have been processed, the files after it are left
    as they were. *)
Theorem run_missing_design_aborts (w : world) (pre post : list string) (name : string) :
  List.NoDup (changed_files (system_designs w)) ->
  decodable ->
  queue w = pre ++ name :: post ->
  (forall n, In n pre -> is_Some (files (system_designs w) !! n)) ->
  files (system_designs w) !! name = None ->
  exists w',
    run w = (Raise AttributeError, w')
    /\ calls w' = calls w ++ List.map (decision w) pre
    /\ forall n, In n post -> files (tasks w') !! n = files (tasks w) !! n.
Proof.
  intros Hnd Hdec Hq Hpre Hname.
  pose proof (queue_NoDup w Hnd) as Hqnd. rewrite Hq in Hqnd.
  apply NoDup_ListNoDup, NoDup_app in Hqnd as (Hpnd & Hdisj & _).
  destruct (run_designs_calls pre [] w (proj1 (NoDup_ListNoDup _) Hpnd) Hpre Hdec)
    as (docs & w1 & Hrun & Hcalls & Hs & Hframe).
  exists w1. rewrite run_as_queue, Hq, run_designs_app, Hrun, run_designs_cons.
  rewrite update_tasks_missing by (by rewrite Hs).
  split; [done|]. split; [done|].
  intros n Hn. apply Hframe. intros Hin.
  apply (Hdisj n); apply list_elem_of_In; [done|by right].
Qed.

End PipelineFacts.

Lemma run_generate_or_merge_witness :
  let w := Sample.project [("a.md", "design a"); ("b.md", "design b")] [("b.md", "old b")]
             ["a.md"] ["b.md"; "a.md"] in
  exists docs w',
    WriteTasks.run "docs/tasks" "requirements.txt" (Sample.answer "{}") (Sample.loads [])
      Sample.path_of w = (Ok docs, w')
    /\ calls w' = [Generate "design a"; Merge (merge_context "old b" "design b")]
    /\ forall k, In k (dict_keys docs) <-> In k ["a.md"; "b.md"].
Proof.
  intros w.
  refine (proj1 (run_generate_or_merge "docs/tasks" "requirements.txt" (Sample.answer "{}")
                   (Sample.loads []) Sample.path_of w _ _ _)).
  - repeat constructor. intros [].
  - intros n Hn. change (queue w) with ["a.md"; "b.md"] in Hn.
    destruct Hn as [<-|[<-|[]]]; vm_compute; eauto.
  - intros history context. eexists _, _. split; reflexivity.
Defined.

Lemma run_missing_design_aborts_witness :
  let w := Sample.project [("a.md", "design a")] [] ["a.md"; "b.md"; "c.md"] [] in
  exists w',
    WriteTasks.run "docs/tasks" "requirements.txt" (Sample.answer "{}") (Sample.loads [])
      Sample.path_of w = (Raise AttributeError, w')
    /\ calls w' = [Generate "design a"]
    /\ forall n, In n ["c.md"] -> files (tasks w') !! n = files (tasks w) !! n.
Proof.
  intros w.
  refine (run_missing_design_aborts "docs/tasks" "requirements.txt" (Sample.answer "{}")
            (Sample.loads []) Sample.path_of w ["a.md"] ["c.md"] "b.md" _ _ _ _ _).
  - repeat constructor; cbn; intuition discriminate.
  - intros history context. eexists _, _. split; reflexivity.
  - reflexivity.
  - intros n [<-|[]]. vm_compute. eauto.
  - reflexivity.
Defined.

(** C2, as stated, fails: the first file of the batch has no system design,
    the second has one; the run raises, returns no mapping, and the second
    file is neither generated nor saved. *)
Lemma run_missing_design_not_skipped :
  let w := Sample.project [("b.md", "design b")] [] ["a.md"; "b.md"] [] in
  queue w = ["a.md"; "b.md"]
  /\ files (system_designs w) !! "a.md" = None
  /\ files (system_designs w) !! "b.md" = Some "design b"
  /\ WriteTasks.run "docs/tasks" "requirements.txt" (Sample.answer "{}") (Sample.loads [])
       Sample.path_of w = (Raise AttributeError, w).
Proof. repeat split. Qed.

(** * Further properties of the code *)

(** ** Stripping *)

Lemma lstrip_by_eq (s : string) : Str.lstrip s = lstrip_by Str.isspace s.
Proof. induction s as [|c s IH]; cbn; [done|]. by rewrite IH. Qed.

Lemma rstrip_by_eq (s : string) : Str.rstrip s = rstrip_by Str.isspace s.
Proof. induction s as [|c s IH]; cbn; [done|]. by rewrite IH. Qed.



Section StripFacts.
Variable p : ascii -> bool.

Lemma lstrip_by_head (s : string) (c : ascii) :
  head_char (lstrip_by p s) = Some c -> p c = false.
Proof.
  induction s as [|a s IH]; cbn; [done|].
  destruct (p a) eqn:E; [done|]. cbn. by intros [= <-].
Qed.

Lemma lstrip_by_fixed (s : string) :
  (forall c, head_char s = Some c -> p c = false) -> lstrip_by p s = s.
Proof. destruct s as [|a s]; cbn; [done|]. intros H. by rewrite (H a). Qed.

Lemma rstrip_by_cons (c : ascii) (s : string) :
  p c = false -> exists r, rstrip_by p (String c s) = String c r.
Proof.
  intros H. cbn. destruct (rstrip_by p s); rewrite ?H; by eexists.
Qed.

Lemma rstrip_by_head (s : string) (c : ascii) :
  head_char (rstrip_by p s) = Some c -> head_char s = Some c.
Proof.
  destruct s as [|a s]; cbn; [done|].
  destruct (rstrip_by p s); [destruct (p a)|]; done.
Qed.

Lemma rstrip_by_unfold (a : ascii) (s : string) :
  rstrip_by p (String a s)
  = match rstrip_by p s with
    | EmptyString => if p a then EmptyString else String a EmptyString
    | r => String a r
    end.
Proof. done. Qed.

Lemma rstrip_by_idem (s : string) : rstrip_by p (rstrip_by p s) = rstrip_by p s.
Proof.
  induction s as [|a s IH]; [done|].
  rewrite rstrip_by_unfold.
  destruct (rstrip_by p s) as [|b r] eqn:E.
  - destruct (p a) eqn:Ea; cbn; [done|]. by rewrite Ea.
  - by rewrite rstrip_by_unfold, IH.
Qed.


Lemma strip_by_idem (s : string) :
  rstrip_by p (lstrip_by p (rstrip_by p (lstrip_by p s))) = rstrip_by p (lstrip_by p s).
Proof.
  rewrite (lstrip_by_fixed (rstrip_by p (lstrip_by p s))); [apply rstrip_by_idem|].
  intros c Hc. apply rstrip_by_head in Hc. by apply lstrip_by_head in Hc.
Qed.



End StripFacts.

Lemma strip_idem (s : string) : Str.strip (Str.strip s) = Str.strip s.
Proof.
  unfold Str.strip. rewrite !rstrip_by_eq, !lstrip_by_eq, <- !rstrip_by_eq.
  rewrite !rstrip_by_eq. apply strip_by_idem.
Qed.

Lemma In_dict_set {V} (k : string) (v : V) (d : list (string * V)) (e : string * V) :
  In e (dict_set k v d) -> e = (k, v) \/ In e d.
Proof.
  induction d as [|[k' v'] d IH]; cbn.
  - intros [<-|[]]. by left.
  - destruct (String.eqb k' k); cbn.
    + intros [<-|H]; auto.
    + intros [H|H]; [auto|]. destruct (IH H); auto.
Qed.

(** Both segmenters return titles and bodies free of leading and trailing
    whitespace. *)
Theorem parse_blocks_trimmed (text : string) (k v : string) :
  (In (k, v) (CodeParser.parse_blocks text)
   \/ exists d, OutputParser.parse_blocks text = Ok d /\ In (k, v) d) ->
  Str.strip k = k /\ Str.strip v = v.
Proof.
  set (trimmed := fun d : list (string * string) =>
         forall k v, In (k, v) d -> Str.strip k = k /\ Str.strip v = v).
  assert (forall d k v, trimmed d -> trimmed (dict_set (Str.strip k) (Str.strip v) d)) as Hset.
  { intros d k0 v0 Hd k1 v1 Hin. apply In_dict_set in Hin as [[= -> ->]|Hin]; [|by apply Hd].
    by rewrite !strip_idem. }
  assert (trimmed []) as Hnil by (intros ? ? []).
  intros [H|(d & Hd & H)].
  - revert H. unfold CodeParser.parse_blocks.
    revert Hnil. generalize (@nil (string * string)).
    induction (Str.split "##" text) as [|b bs IH]; intros acc Hacc; cbn; [by apply Hacc|].
    apply IH. unfold CodeParser.parse_block_step.
    destruct (String.eqb (Str.strip b) ""); [done|].
    destruct (Str.split_nl_once b) as [t [c|]]; [by apply Hset|].
    change "" with (Str.strip ""). by apply Hset.
  - revert Hd H. unfold OutputParser.parse_blocks.
    revert Hnil. generalize (@nil (string * string)).
    induction (Str.split "##" text) as [|b bs IH]; intros acc Hacc; cbn.
    + intros [= <-]. apply Hacc.
    + destruct (OutputParser.parse_block_step acc b) as [acc'|e] eqn:E; cbn; [|done].
      apply IH. unfold OutputParser.parse_block_step in E.
      repeat (case_match; simplify_eq; try done); by apply Hset.
Qed.

Lemma parse_blocks_trimmed_witness :
  Str.strip "Title" = "Title" /\ Str.strip "body" = "body".
Proof.
  apply (parse_blocks_trimmed ("##  Title :" +:+ String "010" "  body  ") "Title" "body").
  right. eexists. split; [reflexivity|]. by left.
Defined.

(** ** Fences *)

Lemma prefix_substring (sub t : string) (n : nat) :
  String.prefix sub (String.substring 0 n t) = true -> String.prefix sub t = true.
Proof.
  revert t n. induction sub as [|a sub IH]; intros t n; [by destruct t|].
  destruct t as [|b t]; [by destruct n|].
  destruct n as [|n]; [done|]. cbn.
  destruct (ascii_dec a b); [apply IH|done].
Qed.

Lemma index_substring_None (sub body : string) (p : nat) :
  sub <> "" -> String.index 0 sub body = Some p ->
  String.index 0 sub (String.substring 0 p body) = None.
Proof.
  intros Hne. revert p. induction body as [|a body IH]; intros p.
  - destruct sub; [done|]. done.
  - cbn [String.index].
    destruct (String.prefix sub (String a body)) eqn:Ep.
    + intros [= <-]. destruct sub; done.
    + destruct (String.index 0 sub body) as [q|] eqn:Eq; [|done].
      intros [= <-]. cbn [String.substring String.index].
      destruct (String.prefix sub (String a (String.substring 0 q body))) eqn:Ep'.
      * apply (prefix_substring sub (String a body) (S q)) in Ep'. congruence.
      * by rewrite (IH q eq_refl).
Qed.

Lemma substring_head_char (s : string) (p : nat) (c : ascii) :
  head_char (String.substring 0 p s) = Some c -> head_char s = Some c.
Proof. destruct s, p; done. Qed.

Lemma search_fence_code (lang text code : string) :
  Re.search_fence lang text = Some code ->
  Str.contains "```" code = false /\ Str.lstrip code = code.
Proof.
  unfold Re.search_fence. intros H.
  repeat (case_match; simplify_eq). split.
  - unfold Str.contains, Str.find. by rewrite index_substring_None.
  - rewrite lstrip_by_eq. apply lstrip_by_fixed. intros c Hc.
    apply substring_head_char in Hc. rewrite lstrip_by_eq in Hc.
    by apply lstrip_by_head in Hc.
Qed.

(** For a language that the pattern reads as plain text, the code a fence
    search returns, from either parser, holds no fence marker and does not
    begin with whitespace. *)
Theorem parse_code_interior (text lang code : string) :
  literal_pattern lang = true ->
  OutputParser.parse_code text lang = Ok code ->
  Str.contains "```" code = false
  /\ Str.lstrip code = code
  /\ CodeParser.parse_code "" text lang = code.
Proof.
  intros _. unfold OutputParser.parse_code, CodeParser.parse_code. cbn.
  destruct (Re.search_fence lang text) as [c|] eqn:E; [|done].
  intros [= <-]. destruct (search_fence_code _ _ _ E). done.
Qed.

Lemma parse_code_interior_witness :
  Str.contains "```" ("x = 1" +:+ String "010" "") = false
  /\ Str.lstrip ("x = 1" +:+ String "010" "") = "x = 1" +:+ String "010" ""
  /\ CodeParser.parse_code ""
       ("text ```python" +:+ String "010" "  x = 1" +:+ String "010" "``` and ```more```")
       "python" = "x = 1" +:+ String "010" "".
Proof.
  apply (parse_code_interior
           ("text ```python" +:+ String "010" "  x = 1" +:+ String "010" "``` and ```more```")
           "python"); reflexivity.
Defined.

Lemma prefix_append (a b s : string) :
  String.prefix (a +:+ b) s = true -> String.prefix a s = true.
Proof.
  revert s. induction a as [|c a IH]; intros s; [by destruct s|].
  change (String c a +:+ b) with (String c (a +:+ b)).
  destruct s as [|d s]; cbn [String.prefix]; [done|].
  destruct (ascii_dec c d); [apply IH|done].
Qed.

Lemma find_append_None (a b s : string) :
  Str.find a s = None -> Str.find (a +:+ b) s = None.
Proof.
  unfold Str.find. induction s as [|c s IH].
  - destruct a; done.
  - intros H. destruct (index_cons_None _ _ _ H) as [Hp Hi].
    cbn [String.index].
    destruct (String.prefix (a +:+ b) (String c s)) eqn:E.
    + apply prefix_append in E. congruence.
    + by rewrite (IH Hi).
Qed.

(** A text without any fence marker: the strict parser raises, the lenient
    one returns the text as it is, for every language that the pattern
    reads as plain text. *)
Theorem parse_code_without_fence (text lang : string) :
  literal_pattern lang = true ->
  Str.contains "```" text = false ->
  OutputParser.parse_code text lang = Raise (Exception "")
  /\ CodeParser.parse_code "" text lang = text.
Proof.
  intros _ H. apply contains_false_find in H.
  unfold OutputParser.parse_code, CodeParser.parse_code, Re.search_fence. cbn [String.eqb].
  by rewrite (find_append_None "```" lang text H).
Qed.

Lemma parse_code_without_fence_witness :
  OutputParser.parse_code "print(1)" "python" = Raise (Exception "")
  /\ CodeParser.parse_code "" "print(1)" "python" = "print(1)".
Proof. apply parse_code_without_fence; reflexivity. Defined.

(** ** The content tag *)

Lemma find_drop_None (sub s : string) (n : nat) :
  sub <> "" -> Str.find sub s = None -> Str.find sub (Str.drop n s) = None.
Proof.
  intros Hne H. destruct (Str.find sub (Str.drop n s)) as [k|] eqn:E; [|done].
  apply find_Some_occurs in E as [E _]. unfold occurs_at in E.
  rewrite substring_drop in E. by destruct (find_None_absent sub s Hne H (n + k)).
Qed.

Lemma extract_content_sentinel (data : string) :
  Str.contains "[CONTENT]" data = false \/ Str.contains "[/CONTENT]" data = false ->
  OutputParser.extract_content data "CONTENT" = OutputParser.no_content_found.
Proof.
  intros H. unfold OutputParser.extract_content, Re.search_tag.
  change ("[" +:+ "CONTENT" +:+ "]") with "[CONTENT]".
  change ("[/" +:+ "CONTENT" +:+ "]") with "[/CONTENT]".
  destruct H as [H|H]; apply contains_false_find in H.
  - by rewrite H.
  - destruct (Str.find "[CONTENT]" data); [|done].
    by rewrite find_drop_None.
Qed.

(** Without an opening or without a closing content marker,
    [parse_data_with_mapping] segments the sentinel text of
    [extract_content], which has no line feed: it raises [ValueError],
    whatever the schema. *)
Theorem parse_data_with_mapping_without_tag (le : string -> result value)
  (data : string) (mapping : list (string * typing_define)) :
  Str.contains "[CONTENT]" data = false \/ Str.contains "[/CONTENT]" data = false ->
  OutputParser.parse_data_with_mapping le data mapping
  = Raise (ValueError "not enough values to unpack (expected 2, got 1)").
Proof.
  intros H. unfold OutputParser.parse_data_with_mapping.
  by rewrite (extract_content_sentinel data H).
Qed.

Lemma parse_data_with_mapping_without_tag_witness :
  OutputParser.parse_data_with_mapping PyLiteral.literal_eval
    ("## Tasks" +:+ String "010" "['a']") [("Tasks", Plain T_List_str)]
  = Raise (ValueError "not enough values to unpack (expected 2, got 1)").
Proof. apply parse_data_with_mapping_without_tag. left. reflexivity. Defined.

(** [extract_content] returns text free of leading and trailing
    whitespace, for the tag [CONTENT] as for any other that the pattern
    reads as plain text. *)
Theorem extract_content_trimmed (text tag : string) :
  literal_pattern tag = true ->
  Str.strip (OutputParser.extract_content text tag) = OutputParser.extract_content text tag.
Proof.
  intros _. unfold OutputParser.extract_content.
  destruct (Re.search_tag tag text); [apply strip_idem|reflexivity].
Qed.

Lemma extract_content_trimmed_witness :
  Str.strip (OutputParser.extract_content "x [PLAN]  step one  [/PLAN] y" "PLAN")
  = OutputParser.extract_content "x [PLAN]  step one  [/PLAN] y" "PLAN"
  /\ OutputParser.extract_content "x [PLAN]  step one  [/PLAN] y" "PLAN" = "step one".
Proof.
  split; [apply extract_content_trimmed|]; reflexivity.
Defined.

(** ** Outcomes of [extract_struct] *)

(** What [extract_struct] returns is a list or a dict, never another kind of
    value; when the literal evaluator keeps to Python's grammar it has the
    shape that was asked for. *)
Theorem extract_struct_returns_structure (le : string -> result value) (text : string)
  (data_type : struct_type) (v : value) :
  OutputParser.extract_struct le text data_type = Ok v ->
  is_list v || is_dict v = true
  /\ (head_determined le -> shape_of v = Some data_type).
Proof.
  intros H.
  destruct (Str.find (String (opening data_type) "") text) as [i|] eqn:Ei;
    [destruct (Str.rfind_char (closing data_type) text) as [j|] eqn:Ej|].
  - rewrite (extract_struct_found le text data_type i j Ei Ej) in H.
    unfold checked in H.
    destruct (le (Str.slice text i (j + 1))) as [r|e] eqn:Er; [|done].
    destruct (is_list r || is_dict r) eqn:Es; [|done].
    injection H as ->. split; [done|]. intros [Hl Hd He].
    destruct (slice_found text _ i j Ei) as [E|[rest E]]; rewrite E in Er.
    { by destruct (He v). }
    destruct data_type; cbn [opening] in Er.
    + pose proof (Hl _ _ Er). by destruct v.
    + pose proof (Hd _ _ Er). by destruct v.
  - rewrite extract_struct_not_found in H by (by right).
    injection H as <-. by destruct data_type.
  - rewrite extract_struct_not_found in H by (by left).
    injection H as <-. by destruct data_type.
Qed.

Lemma extract_struct_returns_structure_witness :
  is_list (VList [VInt 1; VList [VInt 2]]) || is_dict (VList [VInt 1; VList [VInt 2]]) = true
  /\ (head_determined PyLiteral.literal_eval ->
      shape_of (VList [VInt 1; VList [VInt 2]]) = Some list_type).
Proof.
  apply (extract_struct_returns_structure PyLiteral.literal_eval "tasks: [1, [2]] end").
  vm_compute. reflexivity.
Defined.

(** [extract_struct] never raises a [ValueError] or a [SyntaxError]: those of
    the literal evaluator and its own are raised again as a plain
    [Exception]; an exception of another class passes as it is. *)
Theorem extract_struct_error_classes (le : string -> result value) (text : string)
  (data_type : struct_type) (e : exn) :
  OutputParser.extract_struct le text data_type = Raise e ->
  (forall msg, e <> ValueError msg)
  /\ (forall msg, e <> SyntaxError msg)
  /\ ((forall msg, e <> Exception msg) ->
      exists i j, le (Str.slice text i (j + 1)) = Raise e).
Proof.
  intros H.
  destruct (Str.find (String (opening data_type) "") text) as [i|] eqn:Ei;
    [destruct (Str.rfind_char (closing data_type) text) as [j|] eqn:Ej|].
  - rewrite (extract_struct_found le text data_type i j Ei Ej) in H.
    unfold checked in H.
    destruct (le (Str.slice text i (j + 1))) as [r|e0] eqn:Er.
    + destruct (is_list r || is_dict r); [done|]. injection H as <-.
      repeat split; try done. intros Hn. by destruct (Hn _ eq_refl).
    + injection H as <-.
      destruct e0; cbn; repeat split; try done;
        try (intros Hn; by destruct (Hn _ eq_refl)); intros _; by exists i, j.
  - by rewrite extract_struct_not_found in H by (by right).
  - by rewrite extract_struct_not_found in H by (by left).
Qed.

Lemma extract_struct_error_classes_witness :
  (forall msg, TypeError <> ValueError msg)
  /\ (forall msg, TypeError <> SyntaxError msg)
  /\ ((forall msg, TypeError <> Exception msg) ->
      exists i j, PyLiteral.literal_eval (Str.slice "{[1]: 2}" i (j + 1)) = Raise TypeError).
Proof.
  apply (extract_struct_error_classes PyLiteral.literal_eval "{[1]: 2}" dict_type).
  vm_compute. reflexivity.
Defined.

(** ** Splitting on one character, and joining back *)

Lemma split_from_cons (sep : string) (skip : nat) (s : string) :
  exists p ps, Str.split_from sep skip s = p :: ps.
Proof.
  revert skip. induction s as [|a s IH]; intros skip; cbn [Str.split_from].
  - by eexists _, _.
  - destruct skip as [|k]; [|apply IH].
    destruct (String.prefix sep (String a s)).
    + by eexists _, _.
    + destruct (IH 0) as (p & ps & ->). by eexists _, _.
Qed.

Lemma split_char_unfold (c a : ascii) (s : string) :
  Str.split (String c "") (String a s)
  = if Ascii.eqb c a then "" :: Str.split (String c "") s
    else match Str.split (String c "") s with
         | p :: ps => String a p :: ps
         | [] => [String a ""]
         end.
Proof.
  unfold Str.split. cbn [Str.split_from String.prefix String.length Nat.sub].
  destruct (ascii_dec c a) as [->|Hne].
  - rewrite Ascii.eqb_refl. by destruct s.
  - by rewrite (proj2 (Ascii.eqb_neq c a) Hne).
Qed.

Lemma join_cons_char (sep : string) (a : ascii) (p : string) (ps : list string) :
  Str.join sep (String a p :: ps) = String a (Str.join sep (p :: ps)).
Proof. by destruct ps. Qed.

Lemma join_split_char (c : ascii) (s : string) :
  Str.join (String c "") (Str.split (String c "") s) = s.
Proof.
  induction s as [|a s IH]; [done|].
  rewrite split_char_unfold.
  destruct (split_from_cons (String c "") 0 s) as (p & ps & E).
  unfold Str.split in *. rewrite E in *.
  destruct (Ascii.eqb_spec c a) as [->|Hne].
  - change (Str.join (String a "") ("" :: p :: ps))
      with (String a (Str.join (String a "") (p :: ps))).
    by rewrite IH.
  - by rewrite join_cons_char, IH.
Qed.

Lemma split_char_pieces (c : ascii) (s piece : string) :
  In piece (Str.split (String c "") s) -> mem_char c piece = false.
Proof.
  revert piece. induction s as [|a s IH]; intros piece.
  - intros [<-|[]]. done.
  - rewrite split_char_unfold.
    destruct (split_from_cons (String c "") 0 s) as (p & ps & E).
    unfold Str.split in *. rewrite E in *.
    destruct (Ascii.eqb_spec c a) as [->|Hne].
    + intros [<-|H]; [done|by apply IH].
    + intros [<-|H].
      * cbn. rewrite (IH p) by (by left).
        by rewrite (proj2 (Ascii.eqb_neq a c)) by congruence.
      * apply IH. by right.
Qed.

(** ** Lists read from text *)

(** [parse_file_list] on a text without a closing square bracket does not
    consult the literal evaluator and does not raise: it returns the pieces
    of the text between line feeds, which joined by line feeds give the
    text back. *)
Theorem parse_file_list_lines (le : string -> result value) (text : string) :
  (forall k, String.get k text <> Some "]"%char) ->
  exists lines,
    OutputParser.parse_file_list le text = Ok (VList (List.map VStr lines))
    /\ Str.join (String "010" "") lines = text
    /\ forall line, In line lines -> mem_char "010" line = false.
Proof.
  intros H. apply rfind_char_None in H.
  exists (Str.split (String "010" "") text).
  unfold OutputParser.parse_file_list, Re.search_list. rewrite H.
  split; [done|]. split; [apply join_split_char|apply split_char_pieces].
Qed.

Lemma parse_file_list_lines_witness :
  exists lines,
    OutputParser.parse_file_list PyLiteral.literal_eval ("game.py" +:+ String "010" "main.py")
    = Ok (VList (List.map VStr lines))
    /\ Str.join (String "010" "") lines = "game.py" +:+ String "010" "main.py"
    /\ forall line, In line lines -> mem_char "010" line = false.
Proof.
  apply parse_file_list_lines.
  intros k. do 15 (destruct k as [|k]; [discriminate|]). discriminate.
Defined.

Lemma dict_fold_map {A V : Type} (f : string -> A -> V) (blocks : list (string * A))
  (acc : list (string * V)) :
  List.NoDup (dict_keys blocks) ->
  (forall k, In k (dict_keys blocks) -> ~ In k (dict_keys acc)) ->
  fold_left (fun parsed_data '(block, content) => dict_set block (f block content) parsed_data)
    blocks acc
  = acc ++ List.map (fun b => (fst b, f (fst b) (snd b))) blocks.
Proof.
  revert acc. induction blocks as [|[t b] blocks IH]; intros acc Hnd Hfresh; cbn.
  - by rewrite app_nil_r.
  - inversion Hnd as [|? ? Hnin Hnd']; subst.
    rewrite dict_set_fresh by (apply dict_get_None, Hfresh; by left).
    rewrite IH; [by rewrite <- app_assoc|done|].
    intros k Hk. unfold dict_keys. rewrite map_app, in_app_iff. cbn.
    intros [Hin|[<-|[]]]; [|done].
    apply (Hfresh k); [by right|done].
Qed.

(** [parse_data] fails only where the segmentation fails, and otherwise has
    one entry per block; a body that holds no closing square bracket once
    its fence is stripped comes back as the list of its lines, not as a
    string. *)
Theorem parse_data_lines (le : string -> result value) (data : string) :
  OutputParser.parse_data le data
  = rbind (OutputParser.parse_blocks data)
      (fun blocks =>
         Ok (List.map (fun b => (fst b, OutputParser.parse_content le (snd b))) blocks))
  /\ forall body,
       (forall k, String.get k (fence_stripped body) <> Some "]"%char) ->
       OutputParser.parse_content le body
       = VList (List.map VStr (Str.split (String "010" "") (fence_stripped body))).
Proof.
  split.
  - unfold OutputParser.parse_data.
    destruct (OutputParser.parse_blocks data) as [blocks|e] eqn:E; cbn; [|done].
    f_equal.
    rewrite (dict_fold_map (fun _ c => OutputParser.parse_content le c) blocks []); [done| |].
    + by apply OutputParser_parse_blocks_NoDup in E.
    + intros k _ [].
  - intros body H. apply rfind_char_None in H.
    unfold OutputParser.parse_content, OutputParser.parse_file_list, Re.search_list.
    unfold fence_stripped, CodeParser.parse_code, OutputParser.parse_code in *.
    cbn [String.eqb] in *.
    destruct (Re.search_fence "" body); by rewrite H.
Qed.

Lemma parse_data_lines_witness :
  OutputParser.parse_content PyLiteral.literal_eval
    ("```" +:+ String "010" "first" +:+ String "010" "second```")
  = VList [VStr "first"; VStr "second"].
Proof.
  refine (proj2 (parse_data_lines PyLiteral.literal_eval "") _ _).
  intros k. do 12 (destruct k as [|k]; [discriminate|]). discriminate.
Defined.

(** ** Assigned strings *)




(** ** Recipients *)

Lemma letters_prefix_letters (s : string) :
  all_chars Str.is_ascii_letter (Re.letters_prefix s) = true.
Proof.
  induction s as [|c s IH]; cbn; [done|].
  destruct (Str.is_ascii_letter c) eqn:E; cbn; [|done]. by rewrite E, IH.
Qed.

Lemma recipient_at_letters (pat s name : string) :
  Re.recipient_at pat s = Some name ->
  all_chars Str.is_ascii_letter name = true /\ name <> "".
Proof.
  unfold Re.recipient_at. destruct (String.prefix pat s); [|done].
  pose proof (letters_prefix_letters (Str.lstrip (Str.drop (Str.len pat) s))) as H.
  destruct (Re.letters_prefix _); [done|]. by intros [= <-].
Qed.

Lemma search_recipient_letters (pat s name : string) :
  Re.search_recipient pat s = Some name ->
  all_chars Str.is_ascii_letter name = true /\ name <> "".
Proof.
  induction s as [|c s IH]; cbn [Re.search_recipient].
  - destruct (Re.recipient_at pat "") eqn:E; [|done].
    intros [= <-]. by apply recipient_at_letters in E.
  - destruct (Re.recipient_at pat (String c s)) eqn:E; [|done].
    intros [= <-]. by apply recipient_at_letters in E.
Qed.

Lemma search_recipient_None (pat s : string) :
  Re.search_recipient pat s = None <-> forall n, Re.recipient_at pat (Str.drop n s) = None.
Proof.
  induction s as [|c s IH]; cbn [Re.search_recipient].
  - destruct (Re.recipient_at pat "") eqn:E.
    + split; [done|]. intros H. specialize (H 0). cbn in H. congruence.
    + split; [|done]. intros _ [|n]; done.
  - destruct (Re.recipient_at pat (String c s)) eqn:E.
    + split; [done|]. intros H. specialize (H 0). cbn in H. congruence.
    + rewrite IH. split.
      * intros H [|n]; [done|apply H].
      * intros H n. apply (H (S n)).
Qed.

Lemma recipient_at_marked (s name : string) :
  Re.recipient_at "## Send To:" s = Some name ->
  Re.recipient_at "Send To:" (Str.drop 3 s) = Some name.
Proof.
  unfold Re.recipient_at.
  destruct (String.prefix "## Send To:" s) eqn:E; [|done].
  do 3 (destruct s as [|? s]; [done|]).
  cbn [String.prefix] in E.
  do 3 (match type of E with
        | context [ascii_dec ?x ?y] => destruct (ascii_dec x y) as [<-|]; [|done]
        end).
  change (Str.drop 3 (String "#" (String "#" (String " " s)))) with s.
  change (Str.drop (Str.len "## Send To:") (String "#" (String "#" (String " " s))))
    with (Str.drop (Str.len "Send To:") s).
  by rewrite E.
Qed.

(** [parse_recipient] returns ASCII letters only, and returns the empty
    string exactly when nowhere in the text a [Send To:] is followed, after
    any whitespace, by a letter: the pattern that asks for the heading marker
    decides which recipient is taken, never whether one is found. *)
Theorem parse_recipient_letters (text : string) :
  all_chars Str.is_ascii_letter (parse_recipient text) = true
  /\ (parse_recipient text = ""
      <-> forall n, Re.recipient_at "Send To:" (Str.drop n text) = None).
Proof.
  unfold parse_recipient.
  destruct (Re.search_recipient "## Send To:" text) as [r|] eqn:E1.
  - destruct (search_recipient_letters _ _ _ E1) as [Hl Hne]. split; [done|].
    split; [done|]. intros H. exfalso.
    assert (Re.search_recipient "## Send To:" text <> None) as Hs by congruence.
    apply Hs, search_recipient_None. intros n.
    destruct (Re.recipient_at "## Send To:" (Str.drop n text)) as [name|] eqn:En; [|done].
    apply recipient_at_marked in En. specialize (H (n + 3)).
    assert (Str.drop 3 (Str.drop n text) = Str.drop (n + 3) text) as Hd.
    { clear. revert text. induction n as [|n IH]; intros text; [done|].
      destruct text as [|c text]; [done|]. cbn [Str.drop Nat.add]. apply IH. }
    congruence.
  - destruct (Re.search_recipient "Send To:" text) as [r|] eqn:E2.
    + destruct (search_recipient_letters _ _ _ E2) as [Hl Hne]. split; [done|].
      split; [done|]. intros H. apply search_recipient_None in H. congruence.
    + split; [done|]. split; [|done]. intros _. by apply search_recipient_None.
Qed.

(** ** Subscriptions *)

(** [is_subscribed] holds exactly when the message is routed to all or one
    of the tags is among its addresses. *)
Theorem is_subscribed_iff (MESSAGE_ROUTE_TO_ALL : string) (send_to tags : gset string) :
  is_subscribed MESSAGE_ROUTE_TO_ALL send_to tags = true
  <-> MESSAGE_ROUTE_TO_ALL ∈ send_to \/ exists i, i ∈ tags /\ i ∈ send_to.
Proof.
  unfold is_subscribed. case_bool_decide as Hall.
  - split; [by left|done].
  - rewrite existsb_exists. split.
    + intros (i & Hi & Hd). right. exists i.
      apply list_elem_of_In, elem_of_elements in Hi. by apply bool_decide_eq_true in Hd.
    + intros [?|(i & Hi & Hs)]; [done|]. exists i. split.
      * by apply list_elem_of_In, elem_of_elements.
      * by apply bool_decide_eq_true.
Qed.

(** ** What a run leaves behind *)

Lemma length_append (a b : string) :
  String.length (a +:+ b) = String.length a + String.length b.
Proof.
  induction a as [|c a IH]; [done|].
  change (String c a +:+ b) with (String c (a +:+ b)).
  cbn [String.length Nat.add]. by rewrite IH.
Qed.

Lemma append_inj_r (a b c : string) : a +:+ c = b +:+ c -> a = b.
Proof.
  revert b. induction a as [|x a IH]; intros [|y b] H; [done| | |].
  - apply (f_equal String.length) in H.
    change (String.length ("" +:+ c)) with (String.length c) in H.
    change (String.length (String y b +:+ c)) with (S (String.length (b +:+ c))) in H.
    rewrite length_append in H. lia.
  - apply (f_equal String.length) in H.
    change (String.length ("" +:+ c)) with (String.length c) in H.
    change (String.length (String x a +:+ c)) with (S (String.length (a +:+ c))) in H.
    rewrite length_append in H. lia.
  - change (String x (a +:+ c) = String y (b +:+ c)) in H.
    injection H as -> H. f_equal. by apply IH.
Qed.

Lemma dict_get_set {V} (k n : string) (v : V) (d : list (string * V)) :
  dict_get n (dict_set k v d) = if String.eqb k n then Some v else dict_get n d.
Proof.
  induction d as [|[k' v'] d IH]; cbn.
  - done.
  - destruct (String.eqb_spec k' k) as [->|Hne]; cbn.
    + by destruct (String.eqb k n).
    + rewrite IH. destruct (String.eqb_spec k' n) as [->|Hn]; [|done].
      by rewrite (proj2 (String.eqb_neq k n)) by congruence.
Qed.

Lemma second_queue_In (names seen : list string) (n : string) :
  In n (second_queue names seen) -> In n names.
Proof.
  revert seen. induction names as [|name names IH]; intros seen; cbn [second_queue]; [done|].
  destruct (existsb (String.eqb name) seen).
  - intros H. right. by apply (IH seen).
  - intros [<-|H]; [by left|]. right. by apply (IH _ H).
Qed.

Lemma second_queue_all (names seen : list string) (n : string) :
  In n names -> In n seen \/ In n (second_queue names seen).
Proof.
  revert seen. induction names as [|name names IH]; intros seen; cbn [second_queue]; [done|].
  intros [<-|H].
  - destruct (existsb (String.eqb name) seen) eqn:E.
    + left. by apply existsb_eqb_In.
    + right. by left.
  - destruct (existsb (String.eqb name) seen).
    + by apply IH.
    + destruct (IH (seen ++ [name]) H) as [Hs|Hq]; [|right; by right].
      apply in_app_iff in Hs as [Hs|[<-|[]]]; [by left|right; by left].
Qed.

Lemma queue_In (w : world) (n : string) :
  In n (queue w)
  <-> In n (changed_files (system_designs w)) \/ In n (changed_files (tasks w)).
Proof.
  unfold queue. rewrite in_app_iff. split.
  - intros [H|H]; [by left|]. right. by apply second_queue_In in H.
  - intros [H|H]; [by left|].
    destruct (second_queue_all _ (changed_files (system_designs w)) n H); tauto.
Qed.


Section PipelineOutcomes.
Context (TASK_FILE_REPO PACKAGE_REQUIREMENTS_FILENAME : string)
  (PM_NODE_fill : list call -> string -> string)
  (json_loads : string -> result json)
  (root_relative_path : Document -> string).

#[local] Abbreviation update_requirements :=
  (WriteTasks._update_requirements PACKAGE_REQUIREMENTS_FILENAME json_loads).
#[local] Abbreviation update_tasks :=
  (WriteTasks._update_tasks TASK_FILE_REPO PACKAGE_REQUIREMENTS_FILENAME PM_NODE_fill
     json_loads root_relative_path).
#[local] Abbreviation run_designs :=
  (WriteTasks.run_designs TASK_FILE_REPO PACKAGE_REQUIREMENTS_FILENAME PM_NODE_fill
     json_loads root_relative_path).
#[local] Abbreviation run :=
  (WriteTasks.run TASK_FILE_REPO PACKAGE_REQUIREMENTS_FILENAME PM_NODE_fill
     json_loads root_relative_path).
#[local] Abbreviation new_document := (task_document TASK_FILE_REPO PM_NODE_fill).

(** [_update_requirements] writes last: when it raises, nothing has been
    written and the world is as it was. *)
Theorem update_requirements_raises_unchanged (doc : Document) (w w' : world) (e : exn) :
  update_requirements doc w = (Raise e, w') ->
  w' = w
  /\ (json_loads (content doc) = Raise e
      \/ exists m, json_loads (content doc) = Ok m /\ WriteTasks.required_packages m = Raise e).
Proof.
  run_monad.
  destruct (json_loads (content doc)) as [m|e0] eqn:Hm.
  - destruct (WriteTasks.required_packages m) as [p|e1] eqn:Hp; [done|].
    intros [= <- <-]. split; [done|]. right. by exists m.
  - intros [= <- <-]. split; [done|]. by left.
Qed.

(** The world once the task document of a file is saved: the call is
    recorded and the document stored with its dependency. *)
Lemma update_tasks_outcome (name : string) (w : world) (design : string) :
  files (system_designs w) !! name = Some design ->
  update_tasks name w
  = let d := new_document w name in
    let w1 := WriteTasks.save_task name (content d)
                [root_relative_path (design_document w name design)]
                (WriteTasks.record_call (decision w name) w) in
    match json_loads (content d) with
    | Ok m =>
        match WriteTasks.required_packages m with
        | Ok packages =>
            (Ok d,
             WriteTasks.save_export d
               (WriteTasks.save_root PACKAGE_REQUIREMENTS_FILENAME
                  (Str.join (String "010" "")
                     (elements (WriteTasks.merged_requirements PACKAGE_REQUIREMENTS_FILENAME
                                  packages
                                  (repo_get (project_root w) PACKAGE_REQUIREMENTS_FILENAME))))
                  w1))
        | Raise e => (Raise e, w1)
        end
    | Raise e => (Raise e, w1)
    end.
Proof.
  intros H. unfold task_document, design_document, decision. rewrite H.
  cbv [default from_option id].
  run_monad. rewrite H.
  destruct (files (tasks w) !! name) as [old|] eqn:Ht; run_monad;
    [rewrite format_template; run_monad|]; cbn [call_context];
    match goal with
    | |- context [json_loads (PM_NODE_fill ?h ?c)] =>
        destruct (json_loads (PM_NODE_fill h c)) as [m|e] eqn:Hm;
        [destruct (WriteTasks.required_packages m) as [p|e] eqn:Hp|]
    end; reflexivity.
Qed.





Lemma update_tasks_ok (name : string) (w w' : world) (d : Document) :
  update_tasks name w = (Ok d, w') ->
  exists design,
    files (system_designs w) !! name = Some design
    /\ d = new_document w name
    /\ files (tasks w') = <[name := content d]> (files (tasks w))
    /\ dependencies (tasks w')
       = <[name := [root_relative_path (design_document w name design)]]>
           (dependencies (tasks w))
    /\ exports w' = <[name +:+ ".md" := content d]> (exports w)
    /\ calls w' = calls w ++ [decision w name]
    /\ system_designs w' = system_designs w.
Proof.
  destruct (files (system_designs w) !! name) as [design|] eqn:H.
  - rewrite (update_tasks_outcome name w design H). cbv zeta.
    destruct (json_loads _) as [m|e0];
      [destruct (WriteTasks.required_packages m) as [p|e1]|]; try done.
    intros [= <- <-]. exists design. world_fields. done.
  - by rewrite (update_tasks_missing _ _ _ _ _ name w H).
Qed.

Lemma run_designs_saved (w0 : world) (names : list string)
  (docs docs' : list (string * Document)) (w w' : world) :
  system_designs w = system_designs w0 ->
  persisted root_relative_path w0 docs w ->
  run_designs names docs w = (Ok docs', w') ->
  persisted root_relative_path w0 docs' w'
  /\ system_designs w' = system_designs w0
  /\ length (calls w') = length (calls w) + length names.
Proof.
  revert docs w. induction names as [|name names IH]; intros docs w Hs Hp.
  - intros [= <- <-]. split; [done|]. split; [done|]. cbn. lia.
  - rewrite run_designs_cons.
    destruct (update_tasks name w) as [[d|e] w1] eqn:E; [|done].
    apply update_tasks_ok in E as (design & Hd & -> & Hf & Hdep & Hex & Hc & Hs1).
    intros Hrun. apply IH in Hrun as (Hp' & Hs' & Hl).
    + split; [done|]. split; [done|]. rewrite Hl, Hc, length_app. cbn. lia.
    + congruence.
    + unfold persisted in *. intros n d. rewrite dict_get_set, Hf, Hdep, Hex.
      destruct (String.eqb_spec name n) as [<-|Hne].
      * intros [= <-]. rewrite !lookup_insert_eq. repeat split; try done.
        exists design. split; [by rewrite <- Hs|].
        unfold design_document. by rewrite Hs.
      * intros Hn. rewrite !lookup_insert_ne; [by apply Hp|..]; try done.
        intros Heq. by apply append_inj_r in Heq.
Qed.

Lemma run_designs_NoDup (names : list string) (docs docs' : list (string * Document))
  (w w' : world) :
  List.NoDup (dict_keys docs) ->
  run_designs names docs w = (Ok docs', w') ->
  List.NoDup (dict_keys docs').
Proof.
  revert docs w. induction names as [|name names IH]; intros docs w Hnd.
  - by intros [= <- _].
  - rewrite run_designs_cons. destruct (update_tasks name w) as [[d|e] w1]; [|done].
    apply IH. by apply dict_keys_set_NoDup.
Qed.

(** A run that returns has persisted what it returns: each document of the
    mapping is the task file saved under its name, depends on the system
    design of that name, and is exported under that name with the suffix
    [.md]; the model was called once per document when the changed designs
    have distinct names. *)
Theorem run_persists (w w' : world) (docs : list (string * Document)) :
  run w = (Ok docs, w') ->
  persisted root_relative_path w docs w'
  /\ (forall k,
        In k (dict_keys docs)
        <-> In k (changed_files (system_designs w)) \/ In k (changed_files (tasks w)))
  /\ (List.NoDup (changed_files (system_designs w)) ->
      length (calls w') = length (calls w) + length docs).
Proof.
  rewrite (run_as_queue _ _ _ _ _ w). intros Hrun.
  destruct (run_designs_saved w (queue w) [] docs w w' eq_refl) as (Hp & _ & Hl);
    [by intros n d|done|].
  split; [done|].
  assert (forall k, In k (dict_keys docs) <-> In k (queue w)) as Hk.
  { intros k. rewrite (run_designs_keys _ _ _ _ _ _ _ _ _ _ Hrun k). cbn. tauto. }
  split; [intros k; by rewrite Hk, queue_In|].
  intros Hnd. rewrite Hl. f_equal.
  assert (List.NoDup (dict_keys docs)) as Hdocs.
  { apply (run_designs_NoDup (queue w) [] docs w w'); [constructor|done]. }
  unfold dict_keys in Hdocs, Hk.
  rewrite <- (length_map fst docs).
  apply Permutation.Permutation_length, Permutation.NoDup_Permutation;
    [by apply queue_NoDup|done|]. intros k. by rewrite Hk.
Qed.

(** After a run that returns, processing again a file of the mapping calls
    the merge on the content the run returned for it, never the generation. *)
Theorem run_then_merges (w w' : world) (docs : list (string * Document))
  (name : string) (d : Document) :
  run w = (Ok docs, w') ->
  dict_get name docs = Some d ->
  exists design,
    files (system_designs w) !! name = Some design
    /\ calls (snd (update_tasks name w'))
       = calls w' ++ [Merge (merge_context (content d) design)].
Proof.
  intros Hrun Hd.
  rewrite (run_as_queue _ _ _ _ _ w) in Hrun.
  destruct (run_designs_saved w (queue w) [] docs w w' eq_refl) as (Hp & Hs & _);
    [by intros n0 d0|done|].
  destruct (Hp name d Hd) as (_ & Hfile & (design & Hdesign & _) & _).
  exists design. split; [done|].
  destruct (update_tasks_present TASK_FILE_REPO PACKAGE_REQUIREMENTS_FILENAME PM_NODE_fill
              json_loads root_relative_path name w' design) as (r & w2 & E & Hc & _).
  { by rewrite Hs. }
  rewrite E. cbn [snd]. rewrite Hc. unfold decision. by rewrite Hs, Hdesign, Hfile.
Qed.

End PipelineOutcomes.

Lemma update_requirements_raises_unchanged_witness :
  let w := Sample.root_only [("requirements.txt", "a")] in
  let doc := {| root_path := "docs/tasks"; filename := "1.json"; content := "[]" |} in
  w = w
  /\ ((fun _ : string => Ok (JArr [])) (content doc) = Raise AttributeError
      \/ exists m, (fun _ : string => Ok (JArr [])) (content doc) = Ok m
                   /\ WriteTasks.required_packages m = Raise AttributeError).
Proof.
  intros w doc.
  apply (update_requirements_raises_unchanged "requirements.txt" (fun _ => Ok (JArr []))
           doc w w AttributeError).
  reflexivity.
Defined.



Lemma run_persists_witness :
  let w := Sample.project [("a.md", "design a"); ("b.md", "design b")] [("b.md", "old b")]
             ["a.md"] ["b.md"; "a.md"] in
  let run := WriteTasks.run "docs/tasks" "requirements.txt" (Sample.answer "{}")
               (Sample.loads []) Sample.path_of in
  exists docs w',
    run w = (Ok docs, w')
    /\ persisted Sample.path_of w docs w'
    /\ length (calls w') = length (calls w) + length docs.
Proof.
  intros w run.
  destruct (run w) as [[docs|e] w'] eqn:E; [|by vm_compute in E].
  exists docs, w'. split; [done|].
  destruct (run_persists "docs/tasks" "requirements.txt" (Sample.answer "{}")
              (Sample.loads []) Sample.path_of w w' docs E) as (Hp & _ & Hl).
  split; [done|]. apply Hl. repeat constructor. intros [].
Defined.

Lemma run_then_merges_witness :
  let w := Sample.project [("a.md", "design a")] [] ["a.md"] [] in
  let update := WriteTasks._update_tasks "docs/tasks" "requirements.txt" (Sample.answer "{}")
                  (Sample.loads []) Sample.path_of in
  let run := WriteTasks.run "docs/tasks" "requirements.txt" (Sample.answer "{}")
               (Sample.loads []) Sample.path_of in
  calls w = []
  /\ calls (snd (run w)) = [Generate "design a"]
  /\ exists design,
       files (system_designs w) !! "a.md" = Some design
       /\ calls (snd (update "a.md" (snd (run w))))
          = calls (snd (run w)) ++ [Merge (merge_context "{}" design)].
Proof.
  intros w update run. split; [reflexivity|]. split; [reflexivity|].
  apply (run_then_merges "docs/tasks" "requirements.txt" (Sample.answer "{}")
           (Sample.loads []) Sample.path_of w (snd (run w))
           [("a.md", {| root_path := "docs/tasks"; filename := "a.md"; content := "{}" |})]
           "a.md" {| root_path := "docs/tasks"; filename := "a.md"; content := "{}" |}).
  - vm_compute. reflexivity.
  - reflexivity.
Defined.

(** ** Lines written, lines read *)

Lemma append_nil_r (s : string) : s +:+ "" = s.
Proof.
  induction s as [|c s IH]; [done|].
  change (String c s +:+ "") with (String c (s +:+ "")). by rewrite IH.
Qed.

Lemma all_chars_of_list (p : ascii -> bool) (l : list ascii) :
  all_chars p (string_of_list_ascii l) = forallb p l.
Proof. induction l as [|c l IH]; cbn; [done|]. by rewrite IH. Qed.

Lemma forallb_rev_true {A} (p : A -> bool) (l : list A) :
  forallb p l = true -> forallb p (rev l) = true.
Proof.
  rewrite !forallb_forall. intros H x Hx. apply H. by apply in_rev.
Qed.

Lemma splitlines_go_plain (x rest : string) (cur : list ascii) :
  one_line x = true ->
  Str.splitlines_go (x +:+ rest) cur false
  = Str.splitlines_go rest (rev (list_ascii_of_string x) ++ cur) false.
Proof.
  revert cur. induction x as [|a x IH]; intros cur; [done|].
  unfold one_line. cbn [all_chars]. intros [Ha Hx]%andb_true_iff.
  apply negb_true_iff in Ha.
  change (String a x +:+ rest) with (String a (x +:+ rest)).
  cbn [Str.splitlines_go list_ascii_of_string rev].
  rewrite andb_false_r, Ha, (IH _ Hx), <- app_assoc. done.
Qed.

Lemma splitlines_go_one_line (s : string) (cur : list ascii) (after_cr : bool) (line : string) :
  forallb (fun c => negb (Str.is_linebreak c)) cur = true ->
  In line (Str.splitlines_go s cur after_cr) -> one_line line = true.
Proof.
  revert cur after_cr. induction s as [|c s IH]; intros cur after_cr Hcur.
  - cbn. destruct cur; [done|]. intros [<-|[]].
    unfold one_line. rewrite all_chars_of_list. by apply forallb_rev_true.
  - cbn [Str.splitlines_go].
    destruct (Ascii.eqb c "010" && after_cr); [by apply IH|].
    destruct (Str.is_linebreak c) eqn:E.
    + intros [<-|H]; [|by apply (IH [] (Ascii.eqb c "013") eq_refl)].
      unfold one_line. rewrite all_chars_of_list. by apply forallb_rev_true.
    + apply IH. cbn. by rewrite E.
Qed.

Lemma rev_rev_string (x : string) :
  string_of_list_ascii (rev (rev (list_ascii_of_string x) ++ [])) = x.
Proof. by rewrite app_nil_r, rev_involutive, string_of_list_ascii_of_string. Qed.

Lemma splitlines_join_go (x : string) (l : list string) (cur : list ascii) :
  one_line x = true -> forallb one_line l = true ->
  List.filter nonempty (Str.splitlines_go (Str.join (String "010" "") (x :: l)) cur false)
  = List.filter nonempty
      (string_of_list_ascii (rev (rev (list_ascii_of_string x) ++ cur)) :: l).
Proof.
  revert x cur. induction l as [|y l IH]; intros x cur Hx Hl.
  - cbn [Str.join]. rewrite <- (append_nil_r x) at 1.
    rewrite (splitlines_go_plain x "" cur Hx). cbn [Str.splitlines_go].
    destruct (rev (list_ascii_of_string x) ++ cur); done.
  - cbn [forallb] in Hl. apply andb_true_iff in Hl as [Hy Hl].
    change (Str.join (String "010" "") (x :: y :: l))
      with (x +:+ String "010" (Str.join (String "010" "") (y :: l))).
    rewrite (splitlines_go_plain x _ cur Hx).
    change (Str.splitlines_go (String "010" ?r) ?c false)
      with (string_of_list_ascii (rev c) :: Str.splitlines_go r [] false).
    cbn [List.filter]. rewrite (IH y [] Hy Hl), rev_rev_string. done.
Qed.

Lemma splitlines_join (l : list string) :
  forallb one_line l = true ->
  List.filter nonempty (Str.splitlines (Str.join (String "010" "") l)) = List.filter nonempty l.
Proof.
  destruct l as [|x l]; [done|]. cbn [forallb]. intros [Hx Hl]%andb_true_iff.
  unfold Str.splitlines. rewrite (splitlines_join_go x l [] Hx Hl).
  by rewrite rev_rev_string.
Qed.

Lemma nonempty_line (l : list string) (x : string) :
  x <> "" -> (In x (List.filter nonempty l) <-> In x l).
Proof.
  intros Hne. rewrite List.filter_In. unfold nonempty.
  rewrite negb_true_iff, String.eqb_neq. tauto.
Qed.

Section RequirementsRuns.
Context (PACKAGE_REQUIREMENTS_FILENAME : string) (json_loads : string -> result json).

#[local] Abbreviation update_requirements :=
  (WriteTasks._update_requirements PACKAGE_REQUIREMENTS_FILENAME json_loads).
#[local] Abbreviation merged :=
  (WriteTasks.merged_requirements PACKAGE_REQUIREMENTS_FILENAME).

Lemma merged_spec (packages : gset string) (old : option Document) (x : string) :
  x ∈ merged packages old
  <-> x ∈ packages
      \/ (x <> "" /\ In x (Str.splitlines (default "" (content <$> old)))).
Proof.
  unfold WriteTasks.merged_requirements. rewrite add_lines_spec. by destruct old.
Qed.

Lemma merged_one_line (packages : gset string) (old : option Document) :
  (forall x, x ∈ packages -> one_line x = true) ->
  forallb one_line (elements (merged packages old)) = true.
Proof.
  intros H. apply forallb_forall. intros x Hx.
  apply list_elem_of_In, elem_of_elements, merged_spec in Hx as [Hx|[_ Hx]]; [by apply H|].
  eapply (splitlines_go_one_line _ [] false x); [done|exact Hx].
Qed.

Lemma merged_written (packages : gset string) (old : option Document) (x : string) :
  (forall x, x ∈ packages -> one_line x = true) ->
  x <> "" ->
  In x (Str.splitlines (Str.join (String "010" "") (elements (merged packages old))))
  <-> x ∈ merged packages old.
Proof.
  intros H Hne.
  rewrite <- (nonempty_line _ x Hne), (splitlines_join _ (merged_one_line _ old H)).
  by rewrite (nonempty_line _ x Hne), <- list_elem_of_In, elem_of_elements.
Qed.

Lemma update_requirements_ok (doc : Document) (w : world) (m : json)
  (packages : gset string) :
  json_loads (content doc) = Ok m ->
  WriteTasks.required_packages m = Ok packages ->
  update_requirements doc w
  = (Ok tt,
     WriteTasks.save_root PACKAGE_REQUIREMENTS_FILENAME
       (Str.join (String "010" "")
          (elements (merged packages (repo_get (project_root w) PACKAGE_REQUIREMENTS_FILENAME))))
       w).
Proof.
  intros Hm Hp. unfold WriteTasks._update_requirements, mbind, M_bind, bind, lift, gets, modify.
  by rewrite Hm, Hp.
Qed.

Lemma repo_get_saved (text : string) (w : world) :
  repo_get (project_root (WriteTasks.save_root PACKAGE_REQUIREMENTS_FILENAME text w))
    PACKAGE_REQUIREMENTS_FILENAME
  = Some {| root_path := relative_path (project_root w);
            filename := PACKAGE_REQUIREMENTS_FILENAME; content := text |}.
Proof.
  unfold repo_get, WriteTasks.save_root, repo_save.
  cbn [project_root files relative_path]. by rewrite lookup_insert_eq.
Qed.

Lemma save_root_twice (text : string) (w : world) :
  WriteTasks.save_root PACKAGE_REQUIREMENTS_FILENAME text
    (WriteTasks.save_root PACKAGE_REQUIREMENTS_FILENAME text w)
  = WriteTasks.save_root PACKAGE_REQUIREMENTS_FILENAME text w.
Proof.
  unfold WriteTasks.save_root, repo_save.
  cbn [system_designs tasks project_root exports calls relative_path files dependencies
       changed_files].
  by rewrite !insert_insert_eq.
Qed.

(** When no package of the document holds a line boundary, the non-empty
    lines of the requirements file as [_update_requirements] rewrites it are
    the non-empty packages of the document and the non-empty lines the file
    had: what was written is read back by [splitlines]. *)
Theorem update_requirements_lines (doc : Document) (w : world) (m : json)
  (packages : gset string) :
  json_loads (content doc) = Ok m ->
  WriteTasks.required_packages m = Ok packages ->
  (forall x, x ∈ packages -> one_line x = true) ->
  exists text,
    update_requirements doc w
    = (Ok tt, WriteTasks.save_root PACKAGE_REQUIREMENTS_FILENAME text w)
    /\ forall x,
         x <> "" ->
         (In x (Str.splitlines text)
          <-> x ∈ packages
              \/ In x (Str.splitlines
                         (default "" (files (project_root w) !! PACKAGE_REQUIREMENTS_FILENAME)))).
Proof.
  intros Hm Hp Hone. eexists. split; [exact (update_requirements_ok doc w m packages Hm Hp)|].
  intros x Hne. rewrite (merged_written _ _ x Hone Hne), merged_spec.
  unfold repo_get.
  destruct (files (project_root w) !! PACKAGE_REQUIREMENTS_FILENAME); cbn; tauto.
Qed.

(** Under the same condition a second [_update_requirements] with the same
    document adds nothing, in whatever order the first one wrote the merged
    set [written]: the set merged from the file as rewritten is the set
    merged before, and the second run succeeds and writes a file with the
    non-empty lines the first one wrote. *)
Theorem update_requirements_idempotent (doc : Document) (w : world) (m : json)
  (packages : gset string) (written : list string) :
  json_loads (content doc) = Ok m ->
  WriteTasks.required_packages m = Ok packages ->
  (forall x, x ∈ packages -> one_line x = true) ->
  (forall x,
      In x written
      <-> x ∈ merged packages (repo_get (project_root w) PACKAGE_REQUIREMENTS_FILENAME)) ->
  let first := Str.join (String "010" "") written in
  let w1 := WriteTasks.save_root PACKAGE_REQUIREMENTS_FILENAME first w in
  merged packages (repo_get (project_root w1) PACKAGE_REQUIREMENTS_FILENAME)
  = merged packages (repo_get (project_root w) PACKAGE_REQUIREMENTS_FILENAME)
  /\ exists second,
       update_requirements doc w1
       = (Ok tt, WriteTasks.save_root PACKAGE_REQUIREMENTS_FILENAME second w1)
       /\ forall x,
            x <> "" -> (In x (Str.splitlines second) <-> In x (Str.splitlines first)).
Proof.
  intros Hm Hp Hone Hw. cbv zeta.
  set (old := repo_get (project_root w) PACKAGE_REQUIREMENTS_FILENAME) in *.
  assert (forallb one_line written = true) as Hlines.
  { apply forallb_forall. intros x Hx. apply Hw in Hx.
    pose proof (merged_one_line packages old Hone) as H.
    rewrite forallb_forall in H. by apply H, list_elem_of_In, elem_of_elements. }
  assert (forall x, x <> "" ->
            (In x (Str.splitlines (Str.join (String "010" "") written))
             <-> x ∈ merged packages old)) as Hread.
  { intros x Hne.
    rewrite <- (nonempty_line _ x Hne), (splitlines_join _ Hlines), (nonempty_line _ x Hne).
    apply Hw. }
  assert (merged packages
            (repo_get (project_root
                         (WriteTasks.save_root PACKAGE_REQUIREMENTS_FILENAME
                            (Str.join (String "010" "") written) w))
               PACKAGE_REQUIREMENTS_FILENAME)
          = merged packages old) as Hsame.
  { rewrite repo_get_saved. apply set_eq. intros x. rewrite (merged_spec packages (Some _)).
    cbn [fmap option_fmap option_map default content from_option id].
    destruct (String.eqb_spec x "") as [->|Hne].
    - rewrite merged_spec. intuition.
    - rewrite (Hread x Hne), merged_spec. tauto. }
  split; [exact Hsame|].
  eexists. split; [exact (update_requirements_ok doc _ m packages Hm Hp)|].
  intros x Hne. rewrite Hsame, (merged_written packages old x Hone Hne).
  symmetry. by apply Hread.
Qed.

End RequirementsRuns.

Lemma update_requirements_lines_witness :
  let w := Sample.root_only [("requirements.txt", "a" +:+ String "010" "b")] in
  let doc := {| root_path := "docs/tasks"; filename := "1.json"; content := "{}" |} in
  exists text,
    WriteTasks._update_requirements "requirements.txt" (Sample.loads ["b"; "c"]) doc w
    = (Ok tt, WriteTasks.save_root "requirements.txt" text w)
    /\ forall x, x <> "" ->
         (In x (Str.splitlines text) <-> x ∈ ({["b"]} ∪ ({["c"]} ∪ ∅) : gset string)
                                         \/ In x ["a"; "b"]).
Proof.
  intros w doc.
  apply (update_requirements_lines "requirements.txt" (Sample.loads ["b"; "c"]) doc w
           (JObj [(Sample.packages_key, JArr [JStr "b"; JStr "c"])])
           ({["b"]} ∪ ({["c"]} ∪ ∅)) eq_refl eq_refl).
  intros x Hx. apply elem_of_union in Hx as [Hx|Hx].
  - apply elem_of_singleton in Hx as ->. reflexivity.
  - apply elem_of_union in Hx as [Hx|Hx]; [|by apply elem_of_empty in Hx].
    apply elem_of_singleton in Hx as ->. reflexivity.
Defined.

Lemma update_requirements_idempotent_witness :
  let w := Sample.root_only [("requirements.txt", "a" +:+ String "010" "b")] in
  let doc := {| root_path := "docs/tasks"; filename := "1.json"; content := "{}" |} in
  let update := WriteTasks._update_requirements "requirements.txt" (Sample.loads ["b"; "c"]) in
  let first := "c" +:+ String "010" "a" +:+ String "010" "b" in
  let w1 := WriteTasks.save_root "requirements.txt" first w in
  exists second,
    update doc w1 = (Ok tt, WriteTasks.save_root "requirements.txt" second w1)
    /\ forall x, x <> "" -> (In x (Str.splitlines second) <-> In x ["c"; "a"; "b"]).
Proof.
  intros w doc update first w1.
  refine (proj2 (update_requirements_idempotent "requirements.txt" (Sample.loads ["b"; "c"])
                   doc w (JObj [(Sample.packages_key, JArr [JStr "b"; JStr "c"])])
                   ({["b"]} ∪ ({["c"]} ∪ ∅)) ["c"; "a"; "b"] eq_refl eq_refl _ _)).
  - intros x Hx. apply elem_of_union in Hx as [Hx|Hx].
    + apply elem_of_singleton in Hx as ->. reflexivity.
    + apply elem_of_union in Hx as [Hx|Hx]; [|by apply elem_of_empty in Hx].
      apply elem_of_singleton in Hx as ->. reflexivity.
  - intros x.
    change (WriteTasks.merged_requirements "requirements.txt" _ _)
      with ({["b"]} ∪ ({["a"]} ∪ ({["b"]} ∪ ({["c"]} ∪ ∅))) : gset string).
    rewrite !elem_of_union, !elem_of_singleton, elem_of_empty. cbn [In]. intuition.
Defined.

(** ** Strict and lenient list parsing, annotated and plain fields *)



(** In [parse_data_with_mapping] a block whose title the schema declares
    with [List[str]], [List[Tuple[str, str]]] or [List[List[str]]], alone or
    as the head of a tuple, is read as [parse_data] reads a block; a block
    declared with any other annotation keeps its text, fence stripped, even
    when that text is a list; and when every block of the content span is
    declared with one of the three, the result is that of [parse_data] on
    the span. *)
Theorem parse_field_by_annotation (le : string -> result value)
  (mapping : list (string * typing_define)) :
  (forall title body t,
      dict_get title mapping = Some (Plain t) \/ dict_get title mapping = Some (Tupled t) ->
      (t = T_List_str \/ t = T_List_Tuple_str_str \/ t = T_List_List_str ->
       OutputParser.parse_field le mapping title body = OutputParser.parse_content le body)
      /\ (t <> T_List_str -> t <> T_List_Tuple_str_str -> t <> T_List_List_str ->
          OutputParser.parse_field le mapping title body = VStr (fence_stripped body)))
  /\ (forall data blocks,
        OutputParser.parse_blocks (OutputParser.extract_content data "CONTENT") = Ok blocks ->
        (forall title,
            In title (dict_keys blocks) ->
            exists t,
              (dict_get title mapping = Some (Plain t)
               \/ dict_get title mapping = Some (Tupled t))
              /\ (t = T_List_str \/ t = T_List_Tuple_str_str \/ t = T_List_List_str)) ->
        OutputParser.parse_data_with_mapping le data mapping
        = OutputParser.parse_data le (OutputParser.extract_content data "CONTENT")).
Proof.
  assert (forall title body t,
            dict_get title mapping = Some (Plain t) \/ dict_get title mapping = Some (Tupled t) ->
            (t = T_List_str \/ t = T_List_Tuple_str_str \/ t = T_List_List_str ->
             OutputParser.parse_field le mapping title body = OutputParser.parse_content le body)
            /\ (t <> T_List_str -> t <> T_List_Tuple_str_str -> t <> T_List_List_str ->
                OutputParser.parse_field le mapping title body = VStr (fence_stripped body)))
    as Hfield.
  { intros title body t Hdecl.
    unfold OutputParser.parse_field, OutputParser.parse_content, fence_stripped,
      CodeParser.parse_code, OutputParser.parse_code. cbn [String.eqb].
    split.
    - intros [-> | [-> | ->]]; destruct Hdecl as [-> | ->]; cbn [is_list_typing];
        by destruct (Re.search_fence "" body).
    - intros H1 H2 H3. destruct Hdecl as [-> | ->]; destruct t; try done;
        cbn [is_list_typing]; by destruct (Re.search_fence "" body). }
  split; [exact Hfield|].
  intros data blocks E Hall.
  unfold OutputParser.parse_data_with_mapping, OutputParser.parse_data, OutputParser.map_blocks.
  rewrite E. unfold rbind. f_equal.
  pose proof (OutputParser_parse_blocks_NoDup _ _ E) as Hnd.
  rewrite (dict_fold_map (fun t c => OutputParser.parse_field le mapping t c) blocks [] Hnd)
    by (intros k _ []).
  rewrite (dict_fold_map (fun _ c => OutputParser.parse_content le c) blocks [] Hnd)
    by (intros k _ []).
  cbn [app]. apply map_ext_in. intros [title body] Hin. cbn [fst snd]. f_equal.
  destruct (Hall title) as (t & Hdecl & Ht).
  - unfold dict_keys. apply in_map_iff. by exists (title, body).
  - by apply (Hfield title body t Hdecl).
Qed.

Lemma parse_field_by_annotation_witness :
  let mapping := [("Task list", Tupled T_List_str); ("Logic", Plain T_str)] in
  OutputParser.parse_field PyLiteral.literal_eval mapping "Task list" "['a', 'b']"
  = OutputParser.parse_content PyLiteral.literal_eval "['a', 'b']"
  /\ OutputParser.parse_field PyLiteral.literal_eval mapping "Logic" "['a', 'b']"
     = VStr (fence_stripped "['a', 'b']")
  /\ OutputParser.parse_data_with_mapping PyLiteral.literal_eval
       ("[CONTENT]## Task list" +:+ String "010" "['a', 'b'][/CONTENT]") mapping
     = OutputParser.parse_data PyLiteral.literal_eval
         (OutputParser.extract_content
            ("[CONTENT]## Task list" +:+ String "010" "['a', 'b'][/CONTENT]") "CONTENT").
Proof.
  intros mapping. split; [|split].
  - refine (proj1 (proj1 (parse_field_by_annotation PyLiteral.literal_eval mapping)
                     "Task list" "['a', 'b']" T_List_str _) _).
    + right. reflexivity.
    + left. reflexivity.
  - refine (proj2 (proj1 (parse_field_by_annotation PyLiteral.literal_eval mapping)
                     "Logic" "['a', 'b']" T_str _) _ _ _).
    + left. reflexivity.
    + discriminate.
    + discriminate.
    + discriminate.
  - refine (proj2 (parse_field_by_annotation PyLiteral.literal_eval mapping)
              _ [("Task list", "['a', 'b']")] _ _).
    + reflexivity.
    + intros title [<-|[]]. exists T_List_str. split; [right|left]; reflexivity.
Defined.

(** ** The two segmenters *)

Lemma split_from_mem (sep : string) (skip : nat) (s piece : string) (c : ascii) :
  In piece (Str.split_from sep skip s) -> mem_char c piece = true -> mem_char c s = true.
Proof.
  revert skip piece. induction s as [|a s IH]; intros skip piece; cbn [Str.split_from].
  - intros [<-|[]]. done.
  - destruct skip as [|k].
    + destruct (String.prefix sep (String a s)).
      * intros [<-|H]; [done|]. intros Hc. cbn. rewrite (IH _ _ H Hc). apply orb_true_r.
      * destruct (Str.split_from sep 0 s) as [|p ps] eqn:E.
        -- intros [<-|[]]. cbn. rewrite orb_false_r. by intros ->.
        -- intros [<-|H]; cbn.
           ++ intros [Hc|Hc]%orb_true_iff; [by rewrite Hc|].
              assert (mem_char c s = true) as ->; [|apply orb_true_r].
              apply (IH 0 p); [rewrite E; by left|done].
           ++ intros Hc. assert (mem_char c s = true) as ->; [|apply orb_true_r].
              apply (IH 0 piece); [rewrite E; by right|done].
    + intros H Hc. cbn. rewrite (IH _ _ H Hc). apply orb_true_r.
Qed.

Lemma split_nl_once_mem (b t : string) (rest : option string) (c : ascii) :
  Str.split_nl_once b = (t, rest) -> mem_char c t = true -> mem_char c b = true.
Proof.
  revert t rest. induction b as [|a b IH]; intros t rest; cbn [Str.split_nl_once].
  - by intros [= <- _].
  - destruct (Ascii.eqb a "010"); [by intros [= <- _]|].
    destruct (Str.split_nl_once b) as [h r]. intros [= <- _]. cbn.
    intros [Hc|Hc]%orb_true_iff; [by rewrite Hc|].
    rewrite (IH h r eq_refl Hc). apply orb_true_r.
Qed.

Lemma last_char_mem (t : string) (c : ascii) :
  Str.last_char t = Some c -> mem_char c t = true.
Proof.
  induction t as [|a t IH]; [done|].
  destruct t as [|b t].
  - intros [= <-]. cbn. by rewrite Ascii.eqb_refl.
  - intros H. change (mem_char c (String a (String b t)))
      with (Ascii.eqb a c || mem_char c (String b t)).
    rewrite (IH H). apply orb_true_r.
Qed.

Lemma parse_block_step_agree (acc acc' : list (string * string)) (b : string) :
  mem_char ":" b = false ->
  OutputParser.parse_block_step acc b = Ok acc' ->
  CodeParser.parse_block_step acc b = acc'.
Proof.
  intros Hb. unfold OutputParser.parse_block_step, CodeParser.parse_block_step.
  destruct (String.eqb (Str.strip b) ""); [by intros [= <-]|].
  destruct (Str.split_nl_once b) as [t [c|]] eqn:E; [|done].
  destruct (Str.last_char t) as [ch|] eqn:El; [|done].
  destruct (Ascii.eqb_spec ch ":") as [->|Hne]; [|by intros [= <-]].
  apply last_char_mem in El. apply (split_nl_once_mem _ _ _ _ E) in El. congruence.
Qed.

(** On a text without a colon, whenever [OutputParser.parse_blocks] returns
    a mapping [CodeParser.parse_blocks] returns the same one. *)
Theorem parse_blocks_agree (text : string) (d : list (string * string)) :
  mem_char ":" text = false ->
  OutputParser.parse_blocks text = Ok d ->
  CodeParser.parse_blocks text = d.
Proof.
  intros Hc. unfold OutputParser.parse_blocks, CodeParser.parse_blocks.
  assert (forall b, In b (Str.split "##" text) -> mem_char ":" b = false) as Hb.
  { intros b Hin. apply not_true_is_false. intros H.
    apply (split_from_mem _ _ _ _ _ Hin) in H. congruence. }
  revert Hb. generalize (@nil (string * string)).
  induction (Str.split "##" text) as [|b bs IH]; intros acc Hb; cbn.
  - by intros [= <-].
  - destruct (OutputParser.parse_block_step acc b) as [acc'|e] eqn:E; cbn; [|done].
    rewrite (parse_block_step_agree acc acc' b); [|apply Hb; by left|done].
    apply IH. intros b' Hin. apply Hb. by right.
Qed.

Lemma parse_blocks_agree_witness :
  CodeParser.parse_blocks ("## A" +:+ String "010" "x## B" +:+ String "010" "y")
  = [("A", "x"); ("B", "y")].
Proof. apply parse_blocks_agree; reflexivity. Defined.

(** When the last closing delimiter stands before the first opening one the
    span is empty: [extract_struct] hands the empty text to the literal
    evaluator and raises what comes of its error, instead of returning the
    empty container it returns when a delimiter is missing. *)
Theorem extract_struct_reversed (le : string -> result value) (text : string)
  (data_type : struct_type) (i j : nat) (e : exn) :
  Str.find (String (opening data_type) "") text = Some i ->
  Str.rfind_char (closing data_type) text = Some j ->
  j < i ->
  le "" = Raise e ->
  OutputParser.extract_struct le text data_type = Raise (OutputParser.wrap_error data_type e).
Proof.
  intros Hi Hj Hlt He.
  rewrite (extract_struct_found le text data_type i j Hi Hj). unfold Str.slice.
  replace (j + 1 - i) with 0 by lia.
  assert (String.substring i 0 text = "") as ->; [|by rewrite He].
  clear. revert i. induction text as [|c text IH]; intros [|i]; cbn; auto.
Qed.

Lemma extract_struct_reversed_witness :
  OutputParser.extract_struct PyLiteral.literal_eval "] none [" list_type
  = Raise (Exception "Error while extracting and parsing the <class 'list'>: invalid syntax").
Proof.
  apply (extract_struct_reversed PyLiteral.literal_eval "] none [" list_type 7 0
           (SyntaxError "invalid syntax")); [reflexivity|reflexivity|lia|reflexivity].
Defined.
